(** * HHAPIClient: the hh.ru vacancy client of [src/hh_api_client.py]

    A shallow embedding of the class [HHAPIClient] and of the Python
    operations it relies on, followed by the properties of the client.

    Conventions of the model.
    - Python values are the values of JSON documents; numbers are
      integers (the API's ids, counts and salaries), floats are left out.
    - A Python exception is a value of [exn]; a computation that raises
      keeps the state it had reached (nothing is rolled back).
    - The HTTP transport is a black box: a function from the requests sent
      so far and the current request to a response.  The list of requests
      sent is kept in the state as a log; the code never reads it.
    - [while True] is run with fuel; [None] means that the fuel was not
      enough, never that the loop ended.
    - Logging is a side channel and is not modelled. *)

From Stdlib Require Import ZArith List String Ascii Bool Lia.
Import ListNotations.
Local Open Scope string_scope.
Local Open Scope list_scope.
Local Open Scope Z_scope.

(** ** Python values and exceptions *)

Set Warnings "-register-all".

Inductive value : Type :=
| VNone
| VBool (b : bool)
| VInt (n : Z)
| VStr (s : string)
| VList (items : list value)
| VDict (fields : list (string * value)).

Inductive exn : Type :=
| ValueError (msg : string)
| TypeError
| AttributeError
| KeyError (key : string)
| RequestException.

Inductive result (A : Type) : Type :=
| Ok (a : A)
| Raise (e : exn).
Arguments Ok {A} a.
Arguments Raise {A} e.

Definition rbind {A B} (r : result A) (k : A -> result B) : result B :=
  match r with
  | Ok a => k a
  | Raise e => Raise e
  end.

Declare Scope result_scope.
Delimit Scope result_scope with result.
Notation "x <- r ;; k" := (rbind r (fun x => k))
  (at level 61, r at next level, right associativity) : result_scope.

(** [for x in xs: body], where the body updates a local variable [s]
    and may raise. *)
Fixpoint for_in {A S} (xs : list A) (body : A -> S -> result S) (s : S)
  : result S :=
  match xs with
  | [] => Ok s
  | x :: xs' => (s' <- body x s ;; for_in xs' body s')%result
  end.

(** ** The builtins the client uses *)

Module Py.

(** [isinstance(v, int)] together with the integer [v] stands for:
    [bool] is a subclass of [int], [True] is 1 and [False] is 0. *)
Definition as_int (v : value) : option Z :=
  match v with
  | VInt n => Some n
  | VBool b => Some (if b then 1 else 0)
  | _ => None
  end.

Definition isinstance_int (v : value) : bool :=
  match as_int v with Some _ => true | None => false end.

(** First binding of a key in the fields of a dict. *)
Fixpoint lookup (d : list (string * value)) (k : string) : option value :=
  match d with
  | [] => None
  | (k', v) :: d' => if String.eqb k' k then Some v else lookup d' k
  end.

(** [v.get(k, default)]: only a dict has the method. *)
Definition get (v : value) (k : string) (default : value) : result value :=
  match v with
  | VDict d => Ok (match lookup d k with Some x => x | None => default end)
  | _ => Raise AttributeError
  end.

(** [v[k]] for a string key [k]. *)
Definition getitem (v : value) (k : string) : result value :=
  match v with
  | VDict d => match lookup d k with
               | Some x => Ok x
               | None => Raise (KeyError k)
               end
  | _ => Raise TypeError
  end.

(** [int(v)]; [parse] is the builtin's reading of a string literal. *)
Definition int (parse : string -> option Z) (v : value) : result Z :=
  match v with
  | VInt n => Ok n
  | VBool b => Ok (if b then 1 else 0)
  | VStr s => match parse s with
              | Some n => Ok n
              | None => Raise (ValueError "invalid literal for int() with base 10")
              end
  | _ => Raise TypeError
  end.

(** The keys of a dict, each once, in insertion order. *)
Fixpoint keys (d : list (string * value)) : list string :=
  match d with
  | [] => []
  | (k, _) :: d' => k :: filter (fun k' => negb (String.eqb k k')) (keys d')
  end.

(** The elements [list.extend(v)] appends. *)
Definition iter (v : value) : result (list value) :=
  match v with
  | VList l => Ok l
  | VDict d => Ok (map VStr (keys d))
  | VStr s => Ok (map (fun c => VStr (String c EmptyString)) (list_ascii_of_string s))
  | _ => Raise TypeError
  end.

(** [v - k] for an integer [k]. *)
Definition sub (v : value) (k : Z) : result Z :=
  match as_int v with
  | Some n => Ok (n - k)
  | None => Raise TypeError
  end.

(** Hashable values, the ones a dict accepts as keys. *)
Definition hashable (v : value) : bool :=
  match v with
  | VList _ | VDict _ => false
  | _ => true
  end.

(** [==] on hashable values: numbers by value, strings by content. *)
Definition key_eqb (a b : value) : bool :=
  match a, b with
  | VNone, VNone => true
  | VStr s, VStr t => String.eqb s t
  | _, _ => match as_int a, as_int b with
            | Some m, Some n => Z.eqb m n
            | _, _ => false
            end
  end.

(** A dict with arbitrary hashable keys, in insertion order. *)
Definition dict : Type := list (value * value).

Fixpoint dict_get (d : dict) (k : value) : option value :=
  match d with
  | [] => None
  | (k', v) :: d' => if key_eqb k' k then Some v else dict_get d' k
  end.

(** [k in d]. *)
Definition contains (d : dict) (k : value) : result bool :=
  if hashable k
  then Ok (match dict_get d k with Some _ => true | None => false end)
  else Raise TypeError.

(** [d[k] = v]: replaces the value of a key already there, otherwise
    adds the key at the end. *)
Fixpoint dict_set (d : dict) (k v : value) : dict :=
  match d with
  | [] => [(k, v)]
  | (k', v') :: d' =>
      if key_eqb k' k then (k', v) :: d' else (k', v') :: dict_set d' k v
  end.

Definition setitem (d : dict) (k v : value) : result dict :=
  if hashable k then Ok (dict_set d k v) else Raise TypeError.

End Py.

(** ** The transport *)

(** [self.params] *)
Record params : Type := {
  per_page : Z;
  page : Z;
  only_with_salary : bool;
  employer_id : option value
}.

Inductive request : Type :=
| EmployerLookup (id : value)      (* GET EMPLOYER_URL/id, no headers *)
| VacancyList (p : params).        (* GET BASE_URL with self.headers and p *)

(** What [requests.get] gives: it raises a [RequestException], or returns
    a response with a status code and a body.  The body is [None] when it
    is not JSON; [response.json()] then raises the [JSONDecodeError] of
    [requests], which is a [RequestException] too. *)
Inductive response : Type :=
| TransportError
| Http (status_code : Z) (body : option value).

(** ** The client *)

(** The fields of an [HHAPIClient] ([self.headers] never changes and is
    left out), and the requests sent so far, oldest first. *)
Record client : Type := {
  self_params : params;
  self_data : list value;
  sent : list request
}.

(** [HHAPIClient.__init__] *)
Definition init : client := {|
  self_params := {| per_page := 100; page := 0; only_with_salary := true;
                    employer_id := None |};
  self_data := [];
  sent := []
|}.

Definition set_params (p : params) (c : client) : client :=
  {| self_params := p; self_data := self_data c; sent := sent c |}.

Definition set_page (n : Z) (p : params) : params :=
  {| per_page := per_page p; page := n;
     only_with_salary := only_with_salary p; employer_id := employer_id p |}.

Definition set_employer_id (v : value) (p : params) : params :=
  {| per_page := per_page p; page := page p;
     only_with_salary := only_with_salary p; employer_id := Some v |}.

Definition extend (l : list value) (c : client) : client :=
  {| self_params := self_params c; self_data := self_data c ++ l; sent := sent c |}.

Definition record_request (r : request) (c : client) : client :=
  {| self_params := self_params c; self_data := self_data c; sent := sent c ++ [r] |}.

(** Stateful computations: [None] is "out of fuel". *)
Definition M (A : Type) : Type := client -> option (result A * client).

Definition ret {A} (a : A) : M A := fun c => Some (Ok a, c).

Definition raise {A} (e : exn) : M A := fun c => Some (Raise e, c).

Definition bind {A B} (m : M A) (k : A -> M B) : M B :=
  fun c =>
    match m c with
    | Some (Ok a, c') => k a c'
    | Some (Raise e, c') => Some (Raise e, c')
    | None => None
    end.

Definition lift {A} (r : result A) : M A := fun c => Some (r, c).

Definition gets {A} (f : client -> A) : M A := fun c => Some (Ok (f c), c).

Definition modify (f : client -> client) : M unit := fun c => Some (Ok tt, f c).

(** [try: m except RequestException: h] *)
Definition try_except_RequestException {A} (m : M A) (h : M A) : M A :=
  fun c =>
    match m c with
    | Some (Raise RequestException, c') => h c'
    | r => r
    end.

Declare Scope m_scope.
Delimit Scope m_scope with M.
Notation "x <- m ;; k" := (bind m (fun x => k))
  (at level 61, m at next level, right associativity) : m_scope.
Notation "m ;; k" := (bind m (fun _ => k))
  (at level 61, right associativity) : m_scope.

Inductive control : Type := Break | Continue.

(** [while True: body] *)
Fixpoint while_true (fuel : nat) (body : M control) : M unit :=
  match fuel with
  | O => fun _ => None
  | S fuel' =>
      (c <- body ;;
       match c with
       | Break => ret tt
       | Continue => while_true fuel' body
       end)%M
  end.

(** [for x in xs: body x] *)
Fixpoint for_each {A} (xs : list A) (body : A -> M unit) : M unit :=
  match xs with
  | [] => ret tt
  | x :: xs' => (body x ;; for_each xs' body)%M
  end.

Section Client.

(** The transport, and the builtin [int]'s reading of string literals. *)
Variable http : list request -> request -> response.
Variable int_of_str : string -> option Z.

(** [requests.get]: sends the request, raises on a transport error. *)
Definition requests_get (r : request) : M (Z * option value) :=
  fun c =>
    let c' := record_request r c in
    match http (sent c) r with
    | TransportError => Some (Raise RequestException, c')
    | Http status body => Some (Ok (status, body), c')
    end.

(** [response.raise_for_status()] *)
Definition raise_for_status (response : Z * option value) : M unit :=
  if (400 <=? fst response) && (fst response <? 600)
  then raise RequestException
  else ret tt.

(** [response.json()] *)
Definition json (response : Z * option value) : M value :=
  match snd response with
  | Some v => ret v
  | None => raise RequestException
  end.

(** [HHAPIClient.valid_id] *)
Definition valid_id (employer_id : value) : result value :=
  if Py.isinstance_int employer_id
     && match Py.as_int employer_id with Some n => 0 <? n | None => false end
  then Ok employer_id
  else Raise (ValueError "Invalid employer ID").

(** [HHAPIClient.check_existence] *)
Definition check_existence (employer_id : value) : M bool :=
  (response <- requests_get (EmployerLookup employer_id) ;;
   if fst response =? 200 then ret true
   else if fst response =? 404 then raise (ValueError "Employer ID does not exist")
   else raise (ValueError "Failed to check employer ID"))%M.

(** The body of the [while True] loop of [load_vacancy_by_emp_id]. *)
Definition fetch_page : M control :=
  try_except_RequestException
    (p <- gets self_params ;;
     response <- requests_get (VacancyList p) ;;
     raise_for_status response ;;
     data <- json response ;;
     vacancies <- lift (Py.getitem data "items") ;;
     new_items <- lift (Py.iter vacancies) ;;
     modify (extend new_items) ;;
     current <- gets (fun c => page (self_params c)) ;;
     pages <- lift (Py.getitem data "pages") ;;
     last <- lift (Py.sub pages 1) ;;
     if current >=? last then ret Break
     else (modify (fun c => set_params (set_page (current + 1) (self_params c)) c) ;;
           ret Continue))%M
    (ret Break).

(** [HHAPIClient.load_vacancy_by_emp_id] *)
Definition load_vacancy_by_emp_id (fuel : nat) (employer_id : value) : M unit :=
  (employer_id <- lift (valid_id employer_id) ;;
   check_existence employer_id ;;
   modify (fun c => set_params (set_employer_id employer_id (self_params c)) c) ;;
   modify (fun c => set_params (set_page 0 (self_params c)) c) ;;
   while_true fuel fetch_page)%M.

(** [HHAPIClient.load_vacancies_by_emp_ids] *)
Definition load_vacancies_by_emp_ids (fuel : nat) (emp_ids : list value) : M unit :=
  for_each emp_ids (load_vacancy_by_emp_id fuel).

(** [HHAPIClient.get_info] *)
Definition get_info : M (list value) := gets self_data.

(** The body of the [for] loop of [get_areas]; [areas] is the dict
    built so far. *)
Definition get_areas_body (vacancy : value) (areas : Py.dict) : result Py.dict :=
  (area <- Py.get vacancy "area" VNone ;;
   area_id <- Py.get area "id" VNone ;;
   seen <- Py.contains areas area_id ;;
   if seen then Ok areas
   else
     name <- Py.get area "name" VNone ;;
     url <- Py.get area "url" VNone ;;
     Py.setitem areas area_id (VDict [("name", name); ("url", url)]))%result.

(** [HHAPIClient.get_areas] *)
Definition get_areas : M Py.dict :=
  (data <- gets self_data ;; lift (for_in data get_areas_body []))%M.

(** The body of the [for] loop of [get_employers]. *)
Definition get_employers_body (vacancy : value) (employers : Py.dict)
  : result Py.dict :=
  (employer <- Py.get vacancy "employer" VNone ;;
   employer_id <- Py.get employer "id" VNone ;;
   seen <- Py.contains employers employer_id ;;
   if seen then Ok employers
   else
     name <- Py.get employer "name" VNone ;;
     url <- Py.get employer "url" VNone ;;
     Py.setitem employers employer_id
       (VDict [("name", name); ("url", url); ("open_vacancies", VInt 0)]))%result.

(** [HHAPIClient.get_employers] *)
Definition get_employers : M Py.dict :=
  (data <- gets self_data ;; lift (for_in data get_employers_body []))%M.

(** The dict [get_vacancies] appends for a record.  The two logged
    f-strings are evaluated before the dict is built. *)
Definition vacancy_row (vacancy : value) : result value :=
  (salary <- Py.get vacancy "salary" (VDict []) ;;
   salary_from <- Py.get salary "from" VNone ;;
   logged_employer <- Py.get vacancy "employer" VNone ;;
   logged_id <- Py.get logged_employer "id" VNone ;;
   logged_url <- Py.get vacancy "url" VNone ;;
   raw_id <- Py.get vacancy "id" VNone ;;
   id <- Py.int int_of_str raw_id ;;
   name <- Py.get vacancy "name" VNone ;;
   area <- Py.get vacancy "area" (VDict [("id", VNone)]) ;;
   raw_area_id <- Py.get area "id" VNone ;;
   area_id <- Py.int int_of_str raw_area_id ;;
   employer <- Py.get vacancy "employer" VNone ;;
   raw_employer_id <- Py.get employer "id" VNone ;;
   employer_id <- Py.int int_of_str raw_employer_id ;;
   url <- Py.get vacancy "url" VNone ;;
   Ok (VDict [("id", VInt id); ("name", name); ("area_id", VInt area_id);
              ("salary", salary_from); ("employer_id", VInt employer_id);
              ("url", url)]))%result.

(** The body of the [for] loop of [get_vacancies]. *)
Definition get_vacancies_body (vacancy : value) (vacancies_list : list value)
  : result (list value) :=
  (row <- vacancy_row vacancy ;; Ok (vacancies_list ++ [row]))%result.

(** [HHAPIClient.get_vacancies] *)
Definition get_vacancies : M (list value) :=
  (data <- gets self_data ;; lift (for_in data get_vacancies_body []))%M.

End Client.

(** ** The vocabulary of the specification *)

(** The three failures of the specification are all [ValueError]s in the
    code; the message tells them apart. *)
Definition InvalidInput : exn := ValueError "Invalid employer ID".
Definition NotFound : exn := ValueError "Employer ID does not exist".
Definition LookupFailed : exn := ValueError "Failed to check employer ID".

(** The validation property with the integers read as the numbers of the
    specification, the booleans not among them: every input that is not
    a positive integer is refused. *)
Definition rejects_all_but_positive_integers : Prop :=
  forall v : value,
    (forall n : Z, v = VInt n -> n <= 0) ->
    valid_id v = Raise InvalidInput.

(** A transport that gives the same response to every request. *)
Definition always (r : response) : list request -> request -> response :=
  fun _ _ => r.

(** The value under key [k] of a record, [None] when the key is absent
    or the record is not a dict. *)
Definition field (v : value) (k : string) : value :=
  match v with
  | VDict d => match Py.lookup d k with Some x => x | None => VNone end
  | _ => VNone
  end.

Definition is_dict (v : value) : bool :=
  match v with VDict _ => true | _ => false end.

Definition has_field (v : value) (k : string) : bool :=
  match v with
  | VDict d => match Py.lookup d k with Some _ => true | None => false end
  | _ => false
  end.

(** The id of the nested object [k] (["area"] or ["employer"]). *)
Definition nested_id (k : string) (vacancy : value) : value :=
  field (field vacancy k) "id".

(** The first record of the accumulated list whose nested id equals [id]. *)
Definition first_with (k : string) (id : value) (data : list value)
  : option value :=
  find (fun vacancy => Py.key_eqb (nested_id k vacancy) id) data.

Definition area_entry (vacancy : value) : value :=
  VDict [("name", field (field vacancy "area") "name");
         ("url", field (field vacancy "area") "url")].

Definition employer_entry (vacancy : value) : value :=
  VDict [("name", field (field vacancy "employer") "name");
         ("url", field (field vacancy "employer") "url");
         ("open_vacancies", VInt 0)].

(** No two keys of the dict are equal. *)
Fixpoint distinct_keys (d : Py.dict) : bool :=
  match d with
  | [] => true
  | (k, _) :: d' =>
      negb (existsb (fun kv => Py.key_eqb k (fst kv)) d') && distinct_keys d'
  end.

Section Records.

Variable int_of_str : string -> option Z.

(** [int(v)] succeeds. *)
Definition int_like (v : value) : bool :=
  match Py.int int_of_str v with Ok _ => true | Raise _ => false end.

Definition to_int (v : value) : Z :=
  match Py.int int_of_str v with Ok n => n | Raise _ => 0 end.

(** What [get_vacancies] does with a record before it looks at the
    area: the salary, when present, is an object, the employer is an
    object, and the id converts to an integer. *)
Definition reaches_area (vacancy : value) : bool :=
  is_dict vacancy
  && (negb (has_field vacancy "salary") || is_dict (field vacancy "salary"))
  && is_dict (field vacancy "employer")
  && int_like (field vacancy "id").

(** A well-formed record: an object with an id, a nested area and a
    nested employer, both with an id, the ids convertible to integers. *)
Definition well_formed (vacancy : value) : bool :=
  reaches_area vacancy
  && is_dict (field vacancy "area")
  && int_like (nested_id "area" vacancy)
  && int_like (nested_id "employer" vacancy).

(** The flattened tuple of a record. *)
Definition flattened (vacancy : value) : value :=
  VDict [("id", VInt (to_int (field vacancy "id")));
         ("name", field vacancy "name");
         ("area_id", VInt (to_int (nested_id "area" vacancy)));
         ("salary", field (field vacancy "salary") "from");
         ("employer_id", VInt (to_int (nested_id "employer" vacancy)));
         ("url", field vacancy "url")].

End Records.

(** A loop body that files the entry of a record under its nested id
    unless the id is already a key. *)
Definition files_first_seen (k : string) (entry : value -> value)
    (body : value -> Py.dict -> result Py.dict) : Prop :=
  forall vacancy acc out,
    body vacancy acc = Ok out ->
    out = match Py.dict_get acc (nested_id k vacancy) with
          | Some _ => acc
          | None => Py.dict_set acc (nested_id k vacancy) (entry vacancy)
          end.

(** The list request for page [i] of employer [id], as client [c] sends
    it from inside [load_vacancy_by_emp_id]. *)
Definition list_request (c : client) (id : value) (i : nat) : request :=
  VacancyList (set_page (Z.of_nat i) (set_employer_id id (self_params c))).

(** The requests sent once [load_vacancy_by_emp_id], started in [c], has
    asked for the first [n] pages of employer [id]. *)
Definition history (c : client) (id : value) (n : nat) : list request :=
  sent c ++ EmployerLookup id :: map (list_request c id) (seq 0 n).

(** The client at the top of the loop, [n] pages loaded and more to come. *)
Definition after_pages (c : client) (id : value) (items : nat -> list value)
    (n : nat) : client :=
  {| self_params := set_page (Z.of_nat n) (set_employer_id id (self_params c));
     self_data := self_data c ++ List.concat (map items (seq 0 n));
     sent := history c id n |}.

(** What an exception raised inside the [try] of the loop becomes. *)
Definition leaves_try (e : exn) (c : client) : option (result control * client) :=
  match e with
  | RequestException => Some (Ok Break, c)
  | _ => Some (Raise e, c)
  end.

(** A list request that succeeds: no error status, and a JSON object with
    an [items] array and an integer [pages]. *)
Definition page_ok (r : response) (items : list value) (pages : Z) : Prop :=
  exists status d,
    r = Http status (Some (VDict d)) /\
    (status < 400 \/ 600 <= status) /\
    Py.lookup d "items" = Some (VList items) /\
    Py.lookup d "pages" = Some (VInt pages).

(** A list request that fails with a [RequestException]: the transport
    raises, the status is an error status, or the body is not JSON. *)
Definition request_fails (r : response) : Prop :=
  match r with
  | TransportError => True
  | Http status body => 400 <= status < 600 \/ body = None
  end.

(** The client when the loop has ended on page [n]: the request for the
    page is sent, [loaded] is what the [n + 1] requests brought. *)
Definition stopped_at (c : client) (id : value) (loaded : list value) (n : nat)
  : client :=
  {| self_params := set_page (Z.of_nat n) (set_employer_id id (self_params c));
     self_data := self_data c ++ loaded;
     sent := history c id (S n) |}.

(** The first [n] list requests of the loop succeed, each with its items
    and each announcing [p] pages in all. *)
Definition pages_ok (http : list request -> request -> response)
    (c : client) (id : value) (items : nat -> list value) (p : Z) (n : nat)
  : Prop :=
  forall i, (i < n)%nat ->
    page_ok (http (history c id i) (list_request c id i)) (items i) p.

(** The first [n] list requests of the loop succeed, each with its items
    and each announcing pages beyond its own. *)
Definition pages_continue (http : list request -> request -> response)
    (c : client) (id : value) (items : nat -> list value) (n : nat) : Prop :=
  forall i, (i < n)%nat ->
    exists pages,
      page_ok (http (history c id i) (list_request c id i)) (items i) pages /\
      Z.of_nat i < pages - 1.

(** The pagination property read for every page count [p]: [p] list
    requests, for the pages 0 to [p - 1], and their items appended. *)
Definition issues_p_requests : Prop :=
  forall (http : list request -> request -> response) (c : client) (id : value)
         (items : nat -> list value) (p : Z) (body : option value),
    valid_id id = Ok id ->
    http (sent c) (EmployerLookup id) = Http 200 body ->
    (forall n, pages_ok http c id items p n) ->
    exists fuel c',
      load_vacancy_by_emp_id http fuel id c = Some (Ok tt, c') /\
      sent c' = history c id (Z.to_nat p) /\
      self_data c'
      = self_data c ++ List.concat (map items (seq 0 (Z.to_nat p))).

(** A computation that only appends to the accumulated list, whatever
    its outcome. *)
Definition appends {A} (m : M A) : Prop :=
  forall c r c', m c = Some (r, c') -> exists l, self_data c' = self_data c ++ l.

(** The isolation of failures read for every failure of a fetch: whatever
    happens to the other ids of a batch, the fetch of each valid id is
    performed, so that at least its lookup request is sent. *)
Definition failures_are_isolated : Prop :=
  forall (http : list request -> request -> response) (fuel : nat)
         (ids : list value) (c : client) (r : result unit) (c' : client),
    load_vacancies_by_emp_ids http fuel ids c = Some (r, c') ->
    forall id, In id ids -> valid_id id = Ok id ->
               In (EmployerLookup id) (sent c').

(** ** Sample data *)

(** A reading of plain decimal numerals, on which the builtin [int]
    agrees; it stands for the builtin in the examples. *)
Definition digit_of (a : ascii) : option Z :=
  let n := Z.of_N (N_of_ascii a) in
  if (48 <=? n) && (n <=? 57) then Some (n - 48) else None.

Fixpoint read_digits (s : string) (acc : Z) : option Z :=
  match s with
  | EmptyString => Some acc
  | String a s' =>
      match digit_of a with
      | Some d => read_digits s' (10 * acc + d)
      | None => None
      end
  end.

Definition read_decimal (s : string) : option Z :=
  match s with
  | EmptyString => None
  | _ => read_digits s 0
  end.

(** The two records of the end-to-end scenario, ids as the API sends them. *)
Definition vacancy_a : value :=
  VDict [("id", VStr "1"); ("name", VStr "A");
         ("area", VDict [("id", VStr "1"); ("name", VStr "Moscow")]);
         ("employer", VDict [("id", VStr "10"); ("name", VStr "Acme")]);
         ("salary", VDict [("from", VInt 1000)]); ("url", VStr "u1")].

Definition vacancy_b : value :=
  VDict [("id", VStr "2"); ("name", VStr "B");
         ("area", VDict [("id", VStr "1"); ("name", VStr "Moscow")]);
         ("employer", VDict [("id", VStr "11"); ("name", VStr "Beta")]);
         ("salary", VDict [("from", VInt 2000)]); ("url", VStr "u2")].

(** Two records that share the area id 42 under different names. *)
Definition in_moscow : value :=
  VDict [("id", VInt 1);
         ("area", VDict [("id", VInt 42); ("name", VStr "Moscow")]);
         ("employer", VDict [("id", VInt 10); ("name", VStr "Acme")])].

Definition in_moskva : value :=
  VDict [("id", VInt 2);
         ("area", VDict [("id", VInt 42); ("name", VStr "Moskva")]);
         ("employer", VDict [("id", VInt 10); ("name", VStr "Acme Ltd")])].

(** Records without an area, and without an employer. *)
Definition no_area : list (string * value) :=
  [("id", VInt 3); ("name", VStr "C");
   ("employer", VDict [("id", VInt 10)]);
   ("salary", VDict [("from", VInt 500)]); ("url", VStr "u3")].

Definition no_employer : list (string * value) :=
  [("id", VInt 4); ("name", VStr "D");
   ("area", VDict [("id", VInt 1)]);
   ("salary", VDict [("from", VInt 500)]); ("url", VStr "u4")].

(** A client that has accumulated the given records. *)
Definition holding (data : list value) : client :=
  {| self_params := self_params init; self_data := data; sent := [] |}.

(** The body of a list response. *)
Definition page_body (items : list value) (pages : Z) : value :=
  VDict [("items", VList items); ("pages", VInt pages)].

(** The items of page [i] in the sample transports. *)
Definition sample_items (i : nat) : list value :=
  [VDict [("id", VInt (Z.of_nat i))]].

(** Every employer exists; every page answers with one record and
    announces [pages] pages in all. *)
Definition paged (pages : Z) : list request -> request -> response :=
  fun _ q =>
    match q with
    | EmployerLookup _ => Http 200 None
    | VacancyList p =>
        Http 200 (Some (page_body [VDict [("id", VInt (page p))]] pages))
    end.

(** As [paged 3], but the request for page 1 raises. *)
Definition breaks_on_page_1 : list request -> request -> response :=
  fun h q =>
    match q with
    | VacancyList p => if page p =? 1 then TransportError else paged 3 h q
    | _ => paged 3 h q
    end.

(** ** Further vocabulary *)

(** A record that [get_areas] (with [k] the key ["area"]) or
    [get_employers] (with ["employer"]) gets through: an object whose
    nested object is there and has a hashable id. *)
Definition nested_ok (k : string) (vacancy : value) : bool :=
  is_dict vacancy && is_dict (field vacancy k) && Py.hashable (nested_id k vacancy).

(** The loop body of a derived map, spelled out: it files the entry of a
    record that gets through, and raises on the others. *)
Definition files_or_raises (k : string) (entry : value -> value)
    (body : value -> Py.dict -> result Py.dict) : Prop :=
  forall vacancy acc,
    body vacancy acc
    = if nested_ok k vacancy
      then Ok (match Py.dict_get acc (nested_id k vacancy) with
               | Some _ => acc
               | None => Py.dict_set acc (nested_id k vacancy) (entry vacancy)
               end)
      else Raise (if is_dict vacancy && is_dict (field vacancy k)
                  then TypeError else AttributeError).

(** A request a batch over [ids] may send from a client whose page size
    is [per] and whose salary filter is [salary]. *)
Definition sent_for (per : Z) (salary : bool) (ids : list value) (q : request)
  : Prop :=
  match q with
  | EmployerLookup id => In id ids
  | VacancyList p =>
      per_page p = per /\ only_with_salary p = salary /\ 0 <= page p /\
      exists id, In id ids /\ employer_id p = Some id
  end.

(** Every employer exists and every page announces one more page. *)
Definition endless : list request -> request -> response :=
  fun _ q =>
    match q with
    | EmployerLookup _ => Http 200 None
    | VacancyList p =>
        Http 200 (Some (page_body [VDict [("id", VInt (page p))]] (page p + 2)))
    end.

(** Page 0 announces five pages, the later pages announce two. *)
Definition shrinking : list request -> request -> response :=
  fun _ q =>
    match q with
    | EmployerLookup _ => Http 200 None
    | VacancyList p =>
        Http 200 (Some (page_body [VDict [("id", VInt (page p))]]
                          (if page p =? 0 then 5 else 2)))
    end.

(** A record whose salary is null. *)
Definition null_salary : list (string * value) :=
  [("id", VInt 5); ("name", VStr "E"); ("area", VDict [("id", VInt 1)]);
   ("employer", VDict [("id", VInt 10)]); ("salary", VNone); ("url", VStr "u5")].

(** A record without the salary key. *)
Definition no_salary : list (string * value) :=
  [("id", VInt 6); ("name", VStr "F"); ("area", VDict [("id", VInt 1)]);
   ("employer", VDict [("id", VInt 10)]); ("url", VStr "u6")].

(** ** Properties *)

Section Properties.

Variable http : list request -> request -> response.
Variable int_of_str : string -> option Z.

(** *** Validation *)

(** C5, amended. [valid_id] returns a positive integer unchanged, and it
    returns the boolean [True] unchanged, which Python counts as the
    integer 1.  On every other input it raises the InvalidInput error: an
    integer that is not positive, and a value that is not an integer
    ([None], a string, even one that spells a number, a list, an object,
    the boolean [False]).  It never returns anything but its argument. *)
Theorem valid_id_positive_integer :
  (forall n : Z, 0 < n -> valid_id (VInt n) = Ok (VInt n)) /\
  valid_id (VBool true) = Ok (VBool true) /\
  (forall v : value,
      (forall n : Z, v = VInt n -> n <= 0) ->
      v <> VBool true ->
      valid_id v = Raise InvalidInput) /\
  (forall v r : value, valid_id v = Ok r -> r = v).
Proof.
  split; [| split; [| split]].
  - intros n Hn. unfold valid_id. simpl.
    destruct (Z.ltb_spec 0 n); [reflexivity | lia].
  - reflexivity.
  - intros v Hint Hbool. destruct v as [| [] | n | | |]; try reflexivity.
    + now destruct Hbool.
    + specialize (Hint n eq_refl). unfold valid_id. simpl.
      destruct (Z.ltb_spec 0 n); [lia | reflexivity].
  - intros v r. unfold valid_id.
    destruct (_ && _); [now intros [= <-] | discriminate].
Qed.

(** *** Existence check *)

(** C4. When the lookup request is answered with a status code,
    [check_existence] returns [True] exactly for 200, raises the NotFound
    error exactly for 404 and raises the LookupFailed error for every
    other code; the two errors differ. *)
Theorem check_existence_by_status
    (id : value) (c : client) (status : Z) (body : option value) :
  http (sent c) (EmployerLookup id) = Http status body ->
  exists r,
    check_existence http id c = Some (r, record_request (EmployerLookup id) c) /\
    (r = Ok true <-> status = 200) /\
    (r = Raise NotFound <-> status = 404) /\
    (status <> 200 -> status <> 404 -> r = Raise LookupFailed) /\
    NotFound <> LookupFailed.
Proof.
  intros Hresp.
  unfold check_existence, bind, requests_get. rewrite Hresp. cbn [fst].
  destruct (Z.eqb_spec status 200) as [E200 | N200].
  - exists (Ok true). subst status.
    repeat split; try reflexivity; try discriminate; try congruence.
  - destruct (Z.eqb_spec status 404) as [E404 | N404].
    + exists (Raise NotFound).
      repeat split; try reflexivity; try discriminate; try congruence.
    + exists (Raise LookupFailed).
      repeat split; try reflexivity; try discriminate; try congruence.
Qed.

(** *** Projections *)

Lemma for_in_app {A S} (body : A -> S -> result S) (xs ys : list A) (s : S) :
  for_in (xs ++ ys) body s
  = (s' <- for_in xs body s ;; for_in ys body s')%result.
Proof.
  revert s. induction xs as [| x xs IH]; intros s; simpl; [reflexivity |].
  destruct (body x s); simpl; [apply IH | reflexivity].
Qed.

(** A loop raises as soon as its list holds an element on which the body
    raises whatever the local state. *)
Lemma for_in_raises {A S} (body : A -> S -> result S) (x : A) (xs : list A) :
  In x xs ->
  (forall s, exists e, body x s = Raise e) ->
  forall s, exists e, for_in xs body s = Raise e.
Proof.
  intros Hin Hx. induction xs as [| y ys IH]; [destruct Hin |].
  intros s. simpl. destruct Hin as [-> | Hin].
  - destruct (Hx s) as [e He]. rewrite He. simpl. eauto.
  - destruct (body y s) as [s' | e]; simpl; [apply (IH Hin) | eauto].
Qed.

Lemma get_areas_body_no_area (d : list (string * value)) (areas : Py.dict) :
  Py.lookup d "area" = None ->
  get_areas_body (VDict d) areas = Raise AttributeError.
Proof. intros H. unfold get_areas_body. simpl. rewrite H. reflexivity. Qed.

Lemma get_employers_body_no_employer
    (d : list (string * value)) (employers : Py.dict) :
  Py.lookup d "employer" = None ->
  get_employers_body (VDict d) employers = Raise AttributeError.
Proof. intros H. unfold get_employers_body. simpl. rewrite H. reflexivity. Qed.

Lemma vacancy_row_no_employer (d : list (string * value)) :
  Py.lookup d "employer" = None ->
  vacancy_row int_of_str (VDict d) = Raise AttributeError.
Proof.
  intros H. unfold vacancy_row. simpl. rewrite H.
  destruct (Py.lookup d "salary") as [[] |]; reflexivity.
Qed.

Lemma vacancy_row_no_area (d : list (string * value)) :
  Py.lookup d "area" = None ->
  exists e, vacancy_row int_of_str (VDict d) = Raise e.
Proof.
  intros H. unfold vacancy_row. simpl. rewrite H. simpl.
  repeat match goal with
         | |- exists e, Raise _ = Raise e => eexists; reflexivity
         | |- context [rbind ?r _] =>
             let E := fresh "E" in destruct r eqn:E; simpl
         end.
Qed.

Lemma vacancy_row_null_area_id (d : list (string * value)) :
  Py.lookup d "area" = None ->
  reaches_area int_of_str (VDict d) = true ->
  vacancy_row int_of_str (VDict d) = Raise TypeError.
Proof.
  intros H R. unfold reaches_area, has_field, int_like, field in R. simpl in R.
  unfold vacancy_row. simpl. rewrite H.
  destruct (Py.lookup d "employer") as [[] |]; simpl in R;
    try (rewrite ?andb_false_r in R; discriminate).
  destruct (Py.lookup d "salary") as [[] |]; simpl in R; try discriminate; simpl;
    match goal with
    | |- context [Py.int int_of_str ?v] =>
        destruct (Py.int int_of_str v); simpl in R; try discriminate; reflexivity
    end.
Qed.

Lemma run_projection {A} (f : list value -> result A) (c : client) :
  (data <- gets self_data ;; lift (f data))%M c = Some (f (self_data c), c).
Proof. reflexivity. Qed.

(** C10. A record without the [area] key makes [get_areas] raise, and a
    record without the [employer] key makes [get_employers] and
    [get_vacancies] raise: the nested [get] is called on [None], which
    is an AttributeError, and the record is not skipped. *)
Theorem missing_nested_object_raises (c : client) (d : list (string * value)) :
  In (VDict d) (self_data c) ->
  (Py.lookup d "area" = None ->
     (forall areas, get_areas_body (VDict d) areas = Raise AttributeError) /\
     (exists e, get_areas c = Some (Raise e, c))) /\
  (Py.lookup d "employer" = None ->
     (forall employers,
         get_employers_body (VDict d) employers = Raise AttributeError) /\
     (exists e, get_employers c = Some (Raise e, c)) /\
     vacancy_row int_of_str (VDict d) = Raise AttributeError /\
     (exists e, get_vacancies int_of_str c = Some (Raise e, c))).
Proof.
  intros Hin. split; intros Hnone.
  - split; [intros; now apply get_areas_body_no_area |].
    destruct (for_in_raises get_areas_body (VDict d) (self_data c) Hin) with (s := @nil (value * value))
      as [e He].
    + intros s. exists AttributeError. now apply get_areas_body_no_area.
    + exists e. unfold get_areas. rewrite run_projection, He. reflexivity.
  - split; [intros; now apply get_employers_body_no_employer |].
    split; [| split; [now apply vacancy_row_no_employer |]].
    + destruct (for_in_raises get_employers_body (VDict d) (self_data c) Hin)
        with (s := @nil (value * value)) as [e He].
      * intros s. exists AttributeError. now apply get_employers_body_no_employer.
      * exists e. unfold get_employers. rewrite run_projection, He. reflexivity.
    + destruct (for_in_raises (get_vacancies_body int_of_str) (VDict d)
                  (self_data c) Hin) with (s := @nil value) as [e He].
      * intros s. exists AttributeError. unfold get_vacancies_body.
        rewrite (vacancy_row_no_employer d Hnone). reflexivity.
      * exists e. unfold get_vacancies. rewrite run_projection, He. reflexivity.
Qed.

(** C8. A record without the [area] key makes [get_vacancies] raise.
    The absent area is replaced by an object whose id is [None], and
    [int(None)] is a TypeError: that is the error of the record once
    its salary, employer and id have passed; the record is neither
    skipped nor given a default. *)
Theorem get_vacancies_missing_area_raises
    (c : client) (d : list (string * value)) :
  In (VDict d) (self_data c) ->
  Py.lookup d "area" = None ->
  (exists e, get_vacancies int_of_str c = Some (Raise e, c)) /\
  (exists e, vacancy_row int_of_str (VDict d) = Raise e) /\
  (area <- Py.get (VDict d) "area" (VDict [("id", VNone)]) ;;
   Py.get area "id" VNone)%result = Ok VNone /\
  Py.int int_of_str VNone = Raise TypeError /\
  (reaches_area int_of_str (VDict d) = true ->
   vacancy_row int_of_str (VDict d) = Raise TypeError).
Proof.
  intros Hin Hnone. split; [| split; [| split; [| split]]].
  - destruct (for_in_raises (get_vacancies_body int_of_str) (VDict d)
                (self_data c) Hin) with (s := @nil value) as [e He].
    + intros s. destruct (vacancy_row_no_area d Hnone) as [e He].
      exists e. unfold get_vacancies_body. rewrite He. reflexivity.
    + exists e. unfold get_vacancies. rewrite run_projection, He. reflexivity.
  - now apply vacancy_row_no_area.
  - simpl. rewrite Hnone. reflexivity.
  - reflexivity.
  - now apply vacancy_row_null_area_id.
Qed.

Lemma vacancy_row_well_formed (vacancy : value) :
  well_formed int_of_str vacancy = true ->
  vacancy_row int_of_str vacancy = Ok (flattened int_of_str vacancy).
Proof.
  unfold well_formed, reaches_area, flattened, nested_id, int_like, to_int.
  intros W. destruct vacancy as [| | | | | d]; try discriminate W.
  unfold vacancy_row, has_field, field in *. simpl in *.
  destruct (Py.lookup d "employer") as [[| | | | | e] |]; simpl in W;
    try (rewrite ?andb_false_r in W; discriminate W).
  destruct (Py.lookup d "area") as [[| | | | | a] |]; simpl in W;
    try (rewrite ?andb_false_r in W; discriminate W).
  destruct (Py.lookup d "salary") as [[| | | | | sal] |]; simpl in W;
    try discriminate W; simpl;
    repeat match goal with
           | |- context [Py.int int_of_str ?v] =>
               destruct (Py.int int_of_str v); simpl in W;
               try (rewrite ?andb_false_r in W; discriminate W); simpl
           end; reflexivity.
Qed.

Lemma get_vacancies_loop_well_formed (data acc : list value) :
  Forall (fun vacancy => well_formed int_of_str vacancy = true) data ->
  for_in data (get_vacancies_body int_of_str) acc
  = Ok (acc ++ map (flattened int_of_str) data).
Proof.
  intros W. revert acc.
  induction W as [| vacancy data Hv _ IH]; intros acc; simpl.
  - now rewrite app_nil_r.
  - unfold get_vacancies_body at 1. rewrite (vacancy_row_well_formed _ Hv).
    simpl. rewrite IH, <- app_assoc. reflexivity.
Qed.

(** C7. On an accumulated list of well-formed records [get_vacancies]
    returns the flattened tuples of the records, one for each record and
    in the order of the list: the result has the length of the list and
    its i-th element is the tuple of the i-th record. *)
Theorem get_vacancies_keeps_order_and_length (c : client) :
  Forall (fun vacancy => well_formed int_of_str vacancy = true) (self_data c) ->
  exists out,
    get_vacancies int_of_str c = Some (Ok out, c) /\
    out = map (flattened int_of_str) (self_data c) /\
    List.length out = List.length (self_data c) /\
    (forall i vacancy,
        nth_error (self_data c) i = Some vacancy ->
        nth_error out i = Some (flattened int_of_str vacancy)).
Proof.
  intros W. exists (map (flattened int_of_str) (self_data c)).
  split; [| split; [reflexivity | split]].
  - unfold get_vacancies. rewrite run_projection.
    now rewrite (get_vacancies_loop_well_formed _ [] W).
  - apply length_map.
  - intros i vacancy Hi. now apply map_nth_error.
Qed.

(** *** First-seen entries of the derived maps *)

Lemma key_eqb_sym (a b : value) : Py.key_eqb a b = Py.key_eqb b a.
Proof.
  destruct a, b; simpl; try reflexivity;
    try apply Z.eqb_sym; apply String.eqb_sym.
Qed.

Lemma key_eqb_trans (a b k : value) :
  Py.key_eqb a b = true -> Py.key_eqb b k = true -> Py.key_eqb a k = true.
Proof.
  destruct a, b; simpl; try discriminate; destruct k; simpl;
    try discriminate; try reflexivity;
    rewrite ?Z.eqb_eq, ?String.eqb_eq; congruence.
Qed.

Lemma key_eqb_congr (a b k : value) :
  Py.key_eqb a b = true -> Py.key_eqb a k = Py.key_eqb b k.
Proof.
  intros Hab. destruct (Py.key_eqb b k) eqn:Hbk.
  - now apply key_eqb_trans with b.
  - destruct (Py.key_eqb a k) eqn:Hak; [| reflexivity].
    rewrite key_eqb_sym in Hab.
    now rewrite (key_eqb_trans _ _ _ Hab Hak) in Hbk.
Qed.

Lemma dict_get_congr (d : Py.dict) (a b : value) :
  Py.key_eqb a b = true -> Py.dict_get d a = Py.dict_get d b.
Proof.
  intros Hab. induction d as [| [k v] d IH]; simpl; [reflexivity |].
  rewrite (key_eqb_sym k a), (key_eqb_sym k b), (key_eqb_congr a b k Hab), IH.
  reflexivity.
Qed.

Lemma dict_get_set_fresh (d : Py.dict) (a v k : value) :
  Py.dict_get d a = None ->
  Py.dict_get (Py.dict_set d a v) k
  = match Py.dict_get d k with
    | Some x => Some x
    | None => if Py.key_eqb a k then Some v else None
    end.
Proof.
  induction d as [| [k' v'] d IH]; simpl; intros Ha; [reflexivity |].
  destruct (Py.key_eqb k' a) eqn:Hk'; [discriminate |]. simpl.
  destruct (Py.key_eqb k' k); [reflexivity | now apply IH].
Qed.

Lemma existsb_dict_set_fresh (d : Py.dict) (a v k : value) :
  Py.dict_get d a = None ->
  existsb (fun kv => Py.key_eqb k (fst kv)) (Py.dict_set d a v)
  = existsb (fun kv => Py.key_eqb k (fst kv)) d || Py.key_eqb k a.
Proof.
  induction d as [| [k' v'] d IH]; simpl; intros Ha.
  - now rewrite orb_false_r.
  - destruct (Py.key_eqb k' a); [discriminate |]. simpl.
    now rewrite IH, orb_assoc.
Qed.

Lemma distinct_keys_set_fresh (d : Py.dict) (a v : value) :
  Py.dict_get d a = None ->
  distinct_keys d = true ->
  distinct_keys (Py.dict_set d a v) = true.
Proof.
  induction d as [| [k' v'] d IH]; simpl; intros Ha Hd; [reflexivity |].
  destruct (Py.key_eqb k' a) eqn:Hk'; [discriminate |]. simpl.
  apply andb_true_iff in Hd as [Hk Hd].
  rewrite (existsb_dict_set_fresh _ _ _ _ Ha), Hk'.
  rewrite orb_false_r, Hk. simpl. now apply IH.
Qed.

Lemma for_in_first_seen (k : string) (entry : value -> value)
    (body : value -> Py.dict -> result Py.dict) :
  files_first_seen k entry body ->
  forall data acc out,
    for_in data body acc = Ok out ->
    (distinct_keys acc = true -> distinct_keys out = true) /\
    (forall id,
        Py.dict_get out id
        = match Py.dict_get acc id with
          | Some x => Some x
          | None => option_map entry (first_with k id data)
          end).
Proof.
  intros Hbody. induction data as [| vacancy data IH]; intros acc out; simpl.
  - intros [= <-]. split; [easy |]. intros id. now destruct (Py.dict_get acc id).
  - destruct (body vacancy acc) as [acc' |] eqn:Hb; simpl; [| discriminate].
    intros Hloop. destruct (IH _ _ Hloop) as [Hd Hget].
    apply Hbody in Hb.
    destruct (Py.dict_get acc (nested_id k vacancy)) as [seen |] eqn:Hseen; subst acc'.
    + split; [exact Hd |]. intros id. rewrite Hget.
      destruct (Py.dict_get acc id) eqn:Hid; [reflexivity |].
      unfold first_with. simpl.
      destruct (Py.key_eqb (nested_id k vacancy) id) eqn:Hk; [| reflexivity].
      now rewrite (dict_get_congr acc _ _ Hk), Hid in Hseen.
    + split.
      * intros Hacc. apply Hd. now apply distinct_keys_set_fresh.
      * intros id. rewrite Hget, (dict_get_set_fresh _ _ _ _ Hseen).
        destruct (Py.dict_get acc id); [reflexivity |].
        unfold first_with. simpl.
        now destruct (Py.key_eqb (nested_id k vacancy) id).
Qed.

Lemma get_areas_body_files : files_first_seen "area" area_entry get_areas_body.
Proof.
  intros vacancy acc out. unfold get_areas_body, area_entry, nested_id, field.
  destruct vacancy as [| | | | | d]; try discriminate. simpl.
  destruct (Py.lookup d "area") as [[| | | | | a] |]; try discriminate. simpl.
  unfold Py.contains, Py.setitem.
  destruct (Py.hashable _); simpl; [| discriminate].
  destruct (Py.dict_get acc _); simpl; now intros [= <-].
Qed.

Lemma get_employers_body_files :
  files_first_seen "employer" employer_entry get_employers_body.
Proof.
  intros vacancy acc out.
  unfold get_employers_body, employer_entry, nested_id, field.
  destruct vacancy as [| | | | | d]; try discriminate. simpl.
  destruct (Py.lookup d "employer") as [[| | | | | a] |]; try discriminate. simpl.
  unfold Py.contains, Py.setitem.
  destruct (Py.hashable _); simpl; [| discriminate].
  destruct (Py.dict_get acc _); simpl; now intros [= <-].
Qed.

(** C6. The map [get_areas] returns has no key twice, and under each id
    it holds the name and url of the first record of the accumulated
    list with that area id; [get_employers] does the same with the
    employer id (its entries also carry [open_vacancies], always 0). *)
Theorem derived_maps_keep_first_seen (c : client) :
  (forall areas,
      get_areas c = Some (Ok areas, c) ->
      distinct_keys areas = true /\
      forall id, Py.dict_get areas id
                 = option_map area_entry (first_with "area" id (self_data c))) /\
  (forall employers,
      get_employers c = Some (Ok employers, c) ->
      distinct_keys employers = true /\
      forall id, Py.dict_get employers id
                 = option_map employer_entry
                     (first_with "employer" id (self_data c))).
Proof.
  split; intros m Hm.
  - unfold get_areas in Hm. rewrite run_projection in Hm.
    injection Hm as Hm.
    destruct (for_in_first_seen _ _ _ get_areas_body_files _ _ _ Hm) as [Hd Hget].
    split; [now apply Hd | intros id; apply Hget].
  - unfold get_employers in Hm. rewrite run_projection in Hm.
    injection Hm as Hm.
    destruct (for_in_first_seen _ _ _ get_employers_body_files _ _ _ Hm)
      as [Hd Hget].
    split; [now apply Hd | intros id; apply Hget].
Qed.

(** *** The pagination loop *)

Lemma while_true_S (fuel : nat) (body : M control) (c : client) :
  while_true (S fuel) body c
  = match body c with
    | Some (Ok Break, c') => Some (Ok tt, c')
    | Some (Ok Continue, c') => while_true fuel body c'
    | Some (Raise e, c') => Some (Raise e, c')
    | None => None
    end.
Proof.
  simpl. unfold bind. destruct (body c) as [[[[] |] c'] |]; reflexivity.
Qed.

(** One turn of the loop, case by case. *)
Lemma fetch_page_cases (c : client) :
  fetch_page http c
  = let c1 := record_request (VacancyList (self_params c)) c in
    match http (sent c) (VacancyList (self_params c)) with
    | TransportError => Some (Ok Break, c1)
    | Http status body =>
        if (400 <=? status) && (status <? 600) then Some (Ok Break, c1)
        else
          match body with
          | None => Some (Ok Break, c1)
          | Some data =>
              match Py.getitem data "items" with
              | Raise e => leaves_try e c1
              | Ok vacancies =>
                  match Py.iter vacancies with
                  | Raise e => leaves_try e c1
                  | Ok new_items =>
                      let c2 := extend new_items c1 in
                      match Py.getitem data "pages" with
                      | Raise e => leaves_try e c2
                      | Ok pages =>
                          match Py.sub pages 1 with
                          | Raise e => leaves_try e c2
                          | Ok last =>
                              if page (self_params c) >=? last
                              then Some (Ok Break, c2)
                              else Some (Ok Continue,
                                         set_params
                                           (set_page (page (self_params c) + 1)
                                              (self_params c)) c2)
                          end
                      end
                  end
              end
          end
    end.
Proof.
  unfold fetch_page, try_except_RequestException, bind, gets, requests_get,
    raise_for_status, json, lift, modify, raise, ret.
  cbn zeta.
  destruct (http (sent c) (VacancyList (self_params c))) as [| status body];
    [reflexivity |].
  cbn [fst snd].
  destruct ((400 <=? status) && (status <? 600)); [reflexivity |].
  destruct body as [data |]; [| reflexivity].
  destruct (Py.getitem data "items") as [vacancies | []]; try reflexivity.
  destruct (Py.iter vacancies) as [new_items | []]; try reflexivity.
  destruct (Py.getitem data "pages") as [pages | []]; try reflexivity.
  destruct (Py.sub pages 1) as [last | []]; try reflexivity.
  cbn. destruct (page (self_params c) >=? last); reflexivity.
Qed.

Lemma history_S (c : client) (id : value) (n : nat) :
  history c id (S n) = history c id n ++ [list_request c id n].
Proof.
  unfold history. rewrite seq_S, map_app. simpl.
  now rewrite app_comm_cons, app_assoc.
Qed.

Lemma loaded_S (items : nat -> list value) (n : nat) :
  List.concat (map items (seq 0 (S n)))
  = List.concat (map items (seq 0 n)) ++ items n.
Proof.
  rewrite seq_S, map_app, concat_app. simpl. now rewrite app_nil_r.
Qed.

Lemma after_pages_S (c : client) (id : value) (items : nat -> list value)
    (n : nat) :
  let a := after_pages c id items n in
  set_params (set_page (page (self_params a) + 1) (self_params a))
    (extend (items n) (record_request (list_request c id n) a))
  = after_pages c id items (S n).
Proof.
  unfold after_pages, set_params, extend, record_request, set_page.
  cbn [self_params self_data sent page per_page only_with_salary employer_id
       set_employer_id].
  rewrite history_S, loaded_S, app_assoc, Nat2Z.inj_succ.
  reflexivity.
Qed.

Lemma stopped_at_last (c : client) (id : value) (items : nat -> list value)
    (n : nat) :
  extend (items n)
    (record_request (list_request c id n) (after_pages c id items n))
  = stopped_at c id (List.concat (map items (seq 0 (S n)))) n.
Proof.
  unfold stopped_at, after_pages, extend, record_request.
  cbn [self_params self_data sent].
  now rewrite history_S, loaded_S, app_assoc.
Qed.

Lemma fetch_page_continue (c : client) (id : value) (items : nat -> list value)
    (n : nat) (pages : Z) :
  page_ok (http (history c id n) (list_request c id n)) (items n) pages ->
  Z.of_nat n < pages - 1 ->
  fetch_page http (after_pages c id items n)
  = Some (Ok Continue, after_pages c id items (S n)).
Proof.
  intros (status & d & Hresp & Hstatus & Hitems & Hpages) Hmore.
  rewrite fetch_page_cases. cbn zeta.
  change (sent (after_pages c id items n)) with (history c id n).
  change (VacancyList (self_params (after_pages c id items n)))
    with (list_request c id n).
  rewrite Hresp.
  replace ((400 <=? status) && (status <? 600)) with false
    by (symmetry; apply andb_false_iff; rewrite Z.leb_gt, Z.ltb_ge; lia).
  cbn [Py.getitem]. rewrite Hitems. cbn [Py.iter]. rewrite Hpages.
  cbn [Py.sub Py.as_int].
  change (page (self_params (after_pages c id items n))) with (Z.of_nat n).
  destruct (Z.geb_spec (Z.of_nat n) (pages - 1)); [lia |].
  now rewrite <- after_pages_S.
Qed.

Lemma fetch_page_last (c : client) (id : value) (items : nat -> list value)
    (n : nat) (pages : Z) :
  page_ok (http (history c id n) (list_request c id n)) (items n) pages ->
  pages - 1 <= Z.of_nat n ->
  fetch_page http (after_pages c id items n)
  = Some (Ok Break,
          stopped_at c id (List.concat (map items (seq 0 (S n)))) n).
Proof.
  intros (status & d & Hresp & Hstatus & Hitems & Hpages) Hlast.
  rewrite fetch_page_cases. cbn zeta.
  change (sent (after_pages c id items n)) with (history c id n).
  change (VacancyList (self_params (after_pages c id items n)))
    with (list_request c id n).
  rewrite Hresp.
  replace ((400 <=? status) && (status <? 600)) with false
    by (symmetry; apply andb_false_iff; rewrite Z.leb_gt, Z.ltb_ge; lia).
  cbn [Py.getitem]. rewrite Hitems. cbn [Py.iter]. rewrite Hpages.
  cbn [Py.sub Py.as_int].
  change (page (self_params (after_pages c id items n))) with (Z.of_nat n).
  destruct (Z.geb_spec (Z.of_nat n) (pages - 1)); [| lia].
  now rewrite stopped_at_last.
Qed.

Lemma fetch_page_fails (c : client) (id : value) (items : nat -> list value)
    (n : nat) :
  request_fails (http (history c id n) (list_request c id n)) ->
  fetch_page http (after_pages c id items n)
  = Some (Ok Break, stopped_at c id (List.concat (map items (seq 0 n))) n).
Proof.
  intros Hfail. rewrite fetch_page_cases. cbn zeta.
  change (sent (after_pages c id items n)) with (history c id n).
  change (VacancyList (self_params (after_pages c id items n)))
    with (list_request c id n).
  assert (Hend : record_request (list_request c id n) (after_pages c id items n)
                 = stopped_at c id (List.concat (map items (seq 0 n))) n).
  { unfold stopped_at, after_pages, record_request. simpl.
    now rewrite history_S. }
  rewrite Hend.
  destruct (http (history c id n) (list_request c id n)) as [| status body];
    [reflexivity |].
  destruct Hfail as [Hstatus | ->].
  - replace ((400 <=? status) && (status <? 600)) with true; [reflexivity |].
    symmetry. apply andb_true_iff. rewrite Z.leb_le, Z.ltb_lt. lia.
  - now destruct ((400 <=? status) && (status <? 600)).
Qed.

(** Past validation and the existence check, the loop starts with page
    0 and the data it found. *)
Lemma load_enters_loop (fuel : nat) (id : value) (c : client)
    (items : nat -> list value) (body : option value) :
  valid_id id = Ok id ->
  http (sent c) (EmployerLookup id) = Http 200 body ->
  load_vacancy_by_emp_id http fuel id c
  = while_true fuel (fetch_page http) (after_pages c id items 0).
Proof.
  intros Hvalid Hlookup.
  unfold load_vacancy_by_emp_id, check_existence, requests_get, bind, lift,
    modify, ret.
  rewrite Hvalid, Hlookup. cbn [fst Z.eqb Pos.eqb].
  f_equal. unfold after_pages, history, set_params, record_request. simpl.
  now rewrite app_nil_r.
Qed.

(** [n] pages that each announce more pages take [n] turns of the loop. *)
Lemma while_true_pages (c : client) (id : value) (items : nat -> list value)
    (n : nat) :
  pages_continue http c id items n ->
  forall fuel,
    while_true (n + fuel) (fetch_page http) (after_pages c id items 0)
    = while_true fuel (fetch_page http) (after_pages c id items n).
Proof.
  induction n as [| n IH]; intros Hpages fuel; [reflexivity |].
  replace (S n + fuel)%nat with (n + S fuel)%nat by lia.
  rewrite IH by (intros i Hi; apply Hpages; lia).
  rewrite while_true_S.
  destruct (Hpages n) as (pages & Hok & Hmore); [lia |].
  now rewrite (fetch_page_continue _ _ _ _ _ Hok Hmore).
Qed.

Lemma load_until_failure (c : client) (id : value) (items : nat -> list value)
    (n fuel : nat) (body : option value) :
  valid_id id = Ok id ->
  http (sent c) (EmployerLookup id) = Http 200 body ->
  pages_continue http c id items n ->
  request_fails (http (history c id n) (list_request c id n)) ->
  (n < fuel)%nat ->
  load_vacancy_by_emp_id http fuel id c
  = Some (Ok tt, stopped_at c id (List.concat (map items (seq 0 n))) n).
Proof.
  intros Hvalid Hlookup Hpages Hfail Hfuel.
  rewrite (load_enters_loop _ _ _ items _ Hvalid Hlookup).
  replace fuel with (n + S (fuel - S n))%nat by lia.
  rewrite (while_true_pages _ _ _ _ Hpages), while_true_S.
  now rewrite (fetch_page_fails _ _ _ _ Hfail).
Qed.

Lemma load_all_pages (c : client) (id : value) (items : nat -> list value)
    (p : Z) (fuel : nat) (body : option value) :
  valid_id id = Ok id ->
  http (sent c) (EmployerLookup id) = Http 200 body ->
  pages_ok http c id items p (Z.to_nat (Z.max p 1)) ->
  (Z.to_nat (Z.max p 1) <= fuel)%nat ->
  load_vacancy_by_emp_id http fuel id c
  = Some (Ok tt,
          stopped_at c id
            (List.concat (map items (seq 0 (Z.to_nat (Z.max p 1)))))
            (Z.to_nat (Z.max p 1) - 1)).
Proof.
  intros Hvalid Hlookup Hpages Hfuel.
  destruct (Z.to_nat (Z.max p 1)) as [| m] eqn:Hn; [lia |].
  rewrite (load_enters_loop _ _ _ items _ Hvalid Hlookup).
  replace fuel with (m + S (fuel - S m))%nat by lia.
  rewrite while_true_pages, while_true_S.
  - rewrite (fetch_page_last c id items m p); [| apply Hpages; lia | lia].
    now replace (S m - 1)%nat with m by lia.
  - intros i Hi. exists p. split; [apply Hpages; lia | lia].
Qed.

(** C2. When the lookup has passed, [n] list requests have succeeded
    and the next one fails with a transport or HTTP error,
    [load_vacancy_by_emp_id] returns normally: no exception reaches the
    caller, the accumulated list has gained exactly the items of the
    [n] pages, in page order, and the failed request was the last one
    sent.  On a client whose list was empty the list is exactly those
    items. *)
Theorem failure_in_loop_keeps_loaded_pages
    (c : client) (id : value) (items : nat -> list value) (n fuel : nat)
    (body : option value) :
  valid_id id = Ok id ->
  http (sent c) (EmployerLookup id) = Http 200 body ->
  pages_continue http c id items n ->
  request_fails (http (history c id n) (list_request c id n)) ->
  (n < fuel)%nat ->
  exists c',
    load_vacancy_by_emp_id http fuel id c = Some (Ok tt, c') /\
    self_data c' = self_data c ++ List.concat (map items (seq 0 n)) /\
    (self_data c = [] -> self_data c' = List.concat (map items (seq 0 n))) /\
    sent c' = history c id (S n).
Proof.
  intros Hvalid Hlookup Hpages Hfail Hfuel.
  exists (stopped_at c id (List.concat (map items (seq 0 n))) n).
  split; [now apply load_until_failure with body |].
  split; [reflexivity |]. split; [| reflexivity].
  intros Hempty. simpl. now rewrite Hempty.
Qed.

(** C3, amended. When the lookup has passed and every list request
    succeeds and announces [p] pages, [load_vacancy_by_emp_id] sends
    exactly max(p, 1) list requests, for the pages 0, 1, ... in that
    order, stops with the page index at max(p, 1) - 1, which is at
    least [p - 1], and has appended the items of the pages in page
    order.  For [p >= 1] these are the [p] requests for the pages 0 to
    [p - 1]. *)
Theorem pagination_requests_each_page
    (c : client) (id : value) (items : nat -> list value) (p : Z)
    (fuel : nat) (body : option value) :
  valid_id id = Ok id ->
  http (sent c) (EmployerLookup id) = Http 200 body ->
  pages_ok http c id items p (Z.to_nat (Z.max p 1)) ->
  (Z.to_nat (Z.max p 1) <= fuel)%nat ->
  exists c',
    load_vacancy_by_emp_id http fuel id c = Some (Ok tt, c') /\
    sent c'
    = sent c ++ EmployerLookup id
        :: map (list_request c id) (seq 0 (Z.to_nat (Z.max p 1))) /\
    self_data c'
    = self_data c
        ++ List.concat (map items (seq 0 (Z.to_nat (Z.max p 1)))) /\
    page (self_params c') = Z.max p 1 - 1 /\
    page (self_params c') >= p - 1 /\
    (1 <= p -> Z.to_nat (Z.max p 1) = Z.to_nat p).
Proof.
  intros Hvalid Hlookup Hpages Hfuel.
  exists (stopped_at c id
            (List.concat (map items (seq 0 (Z.to_nat (Z.max p 1)))))
            (Z.to_nat (Z.max p 1) - 1)).
  split; [now apply load_all_pages with body |].
  destruct (Z.to_nat (Z.max p 1)) as [| m] eqn:Hn; [lia |].
  replace (S m - 1)%nat with m by lia.
  split; [reflexivity |]. split; [reflexivity |].
  cbn [stopped_at self_params set_page page].
  repeat split; lia.
Qed.

(** *** The accumulated list *)

Lemma appends_ret {A} (a : A) : appends (ret a).
Proof. intros c r c' [= <- <-]. exists []. now rewrite app_nil_r. Qed.

Lemma appends_raise {A} (e : exn) : appends (@raise A e).
Proof. intros c r c' [= <- <-]. exists []. now rewrite app_nil_r. Qed.

Lemma appends_lift {A} (x : result A) : appends (lift x).
Proof. intros c r c' [= <- <-]. exists []. now rewrite app_nil_r. Qed.

Lemma appends_gets {A} (f : client -> A) : appends (gets f).
Proof. intros c r c' [= <- <-]. exists []. now rewrite app_nil_r. Qed.

Lemma appends_modify (f : client -> client) :
  (forall c, exists l, self_data (f c) = self_data c ++ l) ->
  appends (modify f).
Proof. intros Hf c r c' [= <- <-]. apply Hf. Qed.

Lemma appends_bind {A B} (m : M A) (k : A -> M B) :
  appends m -> (forall a, appends (k a)) -> appends (bind m k).
Proof.
  intros Hm Hk c r c'. unfold bind.
  destruct (m c) as [[[a | e] c1] |] eqn:Em; [| | discriminate].
  - intros Ek. destruct (Hm _ _ _ Em) as [l1 H1].
    destruct (Hk a _ _ _ Ek) as [l2 H2].
    exists (l1 ++ l2). now rewrite H2, H1, app_assoc.
  - intros [= <- <-]. apply (Hm _ _ _ Em).
Qed.

Lemma appends_try {A} (m h : M A) :
  appends m -> appends h -> appends (try_except_RequestException m h).
Proof.
  intros Hm Hh c r c'. unfold try_except_RequestException.
  destruct (m c) as [[[a | e] c1] |] eqn:Em; [| | discriminate].
  - intros [= <- <-]. apply (Hm _ _ _ Em).
  - destruct (Hm _ _ _ Em) as [l1 H1].
    destruct e; try (intros [= <- <-]; eauto).
    intros Eh. destruct (Hh _ _ _ Eh) as [l2 H2].
    exists (l1 ++ l2). now rewrite H2, H1, app_assoc.
Qed.

Lemma appends_while_true (fuel : nat) (body : M control) :
  appends body -> appends (while_true fuel body).
Proof.
  intros Hbody. induction fuel as [| fuel IH]; [intros c r c'; discriminate |].
  simpl. apply appends_bind; [exact Hbody |].
  intros []; [apply appends_ret | exact IH].
Qed.

Lemma appends_for_each {A} (xs : list A) (body : A -> M unit) :
  (forall x, appends (body x)) -> appends (for_each xs body).
Proof.
  intros Hbody. induction xs as [| x xs IH]; simpl; [apply appends_ret |].
  apply appends_bind; [apply Hbody | intros _; exact IH].
Qed.

Lemma appends_requests_get (r : request) : appends (requests_get http r).
Proof.
  intros c x c'. unfold requests_get.
  destruct (http (sent c) r); intros [= <- <-]; exists []; simpl;
    now rewrite app_nil_r.
Qed.

Ltac appends_params :=
  apply appends_modify; intros ?; exists []; simpl; now rewrite app_nil_r.

Lemma appends_fetch_page : appends (fetch_page http).
Proof.
  unfold fetch_page.
  apply appends_try; [| apply appends_ret].
  apply appends_bind; [apply appends_gets | intros p].
  apply appends_bind; [apply appends_requests_get | intros response].
  apply appends_bind.
  { unfold raise_for_status.
    destruct (_ && _); [apply appends_raise | apply appends_ret]. }
  intros _. apply appends_bind.
  { unfold json. destruct (snd response); [apply appends_ret | apply appends_raise]. }
  intros data.
  apply appends_bind; [apply appends_lift | intros vacancies].
  apply appends_bind; [apply appends_lift | intros new_items].
  apply appends_bind.
  { apply appends_modify. intros c. now exists new_items. }
  intros _.
  apply appends_bind; [apply appends_gets | intros current].
  apply appends_bind; [apply appends_lift | intros pages].
  apply appends_bind; [apply appends_lift | intros last].
  destruct (current >=? last); [apply appends_ret |].
  apply appends_bind; [appends_params | intros _; apply appends_ret].
Qed.

Lemma appends_load (fuel : nat) (id : value) :
  appends (load_vacancy_by_emp_id http fuel id).
Proof.
  unfold load_vacancy_by_emp_id.
  apply appends_bind; [apply appends_lift | intros id'].
  apply appends_bind.
  { unfold check_existence.
    apply appends_bind; [apply appends_requests_get | intros response].
    destruct (fst response =? 200); [apply appends_ret |].
    destruct (fst response =? 404); apply appends_raise. }
  intros _.
  apply appends_bind; [appends_params | intros _].
  apply appends_bind; [appends_params | intros _].
  apply appends_while_true, appends_fetch_page.
Qed.

Lemma batch_cons (fuel : nat) (id : value) (ids : list value) (c : client) :
  load_vacancies_by_emp_ids http fuel (id :: ids) c
  = match load_vacancy_by_emp_id http fuel id c with
    | Some (Ok _, c1) => load_vacancies_by_emp_ids http fuel ids c1
    | Some (Raise e, c1) => Some (Raise e, c1)
    | None => None
    end.
Proof. reflexivity. Qed.

(** C9. Whatever their outcome, [load_vacancy_by_emp_id] and
    [load_vacancies_by_emp_ids] leave the accumulated list as it was
    with new elements at its end; [get_info], [get_areas],
    [get_employers] and [get_vacancies] leave the client as it was; and
    nothing is removed as a duplicate: loading twice an employer whose
    single page holds [items] appends [items] twice. *)
Theorem accumulated_list_only_grows :
  (forall fuel id c r c',
      load_vacancy_by_emp_id http fuel id c = Some (r, c') ->
      exists l, self_data c' = self_data c ++ l) /\
  (forall fuel ids c r c',
      load_vacancies_by_emp_ids http fuel ids c = Some (r, c') ->
      exists l, self_data c' = self_data c ++ l) /\
  (forall c, get_info c = Some (Ok (self_data c), c)) /\
  (forall c, exists r, get_areas c = Some (r, c)) /\
  (forall c, exists r, get_employers c = Some (r, c)) /\
  (forall c, exists r, get_vacancies int_of_str c = Some (r, c)) /\
  (forall fuel id c items body,
      valid_id id = Ok id ->
      (forall h, http h (EmployerLookup id) = Http 200 body) ->
      (forall h q, page_ok (http h (VacancyList q)) items 1) ->
      (1 <= fuel)%nat ->
      exists c',
        load_vacancies_by_emp_ids http fuel [id; id] c = Some (Ok tt, c') /\
        self_data c' = self_data c ++ items ++ items).
Proof.
  split; [intros fuel id; apply appends_load |].
  split; [intros fuel ids; apply appends_for_each; intros id; apply appends_load |].
  split; [reflexivity |].
  split; [intros c; eexists; unfold get_areas; now rewrite run_projection |].
  split; [intros c; eexists; unfold get_employers; now rewrite run_projection |].
  split; [intros c; eexists; unfold get_vacancies; now rewrite run_projection |].
  intros fuel id c items body Hvalid Hlookup Hpage Hfuel.
  assert (Hload : forall c0,
             load_vacancy_by_emp_id http fuel id c0
             = Some (Ok tt, stopped_at c0 id (items ++ []) 0)).
  { intros c0.
    apply (load_all_pages c0 id (fun _ => items) 1 fuel body Hvalid);
      [apply Hlookup | intros i _; apply Hpage | exact Hfuel]. }
  eexists. rewrite batch_cons, Hload, batch_cons, Hload.
  split; [reflexivity |].
  simpl. now rewrite !app_nil_r, app_assoc.
Qed.

(** *** Failures inside a batch *)

Lemma load_invalid (fuel : nat) (id : value) (c : client) :
  valid_id id <> Ok id ->
  load_vacancy_by_emp_id http fuel id c = Some (Raise InvalidInput, c).
Proof.
  intros Hinvalid. unfold load_vacancy_by_emp_id, bind, lift.
  unfold valid_id in *. destruct (_ && _); [now destruct Hinvalid | reflexivity].
Qed.

Lemma load_lookup_rejected (fuel : nat) (id : value) (c : client)
    (status : Z) (body : option value) :
  valid_id id = Ok id ->
  http (sent c) (EmployerLookup id) = Http status body ->
  status <> 200 ->
  load_vacancy_by_emp_id http fuel id c
  = Some (Raise (if status =? 404 then NotFound else LookupFailed),
          record_request (EmployerLookup id) c).
Proof.
  intros Hvalid Hlookup Hstatus.
  unfold load_vacancy_by_emp_id, check_existence, requests_get, bind, lift.
  rewrite Hvalid, Hlookup. cbn [fst].
  destruct (Z.eqb_spec status 200); [contradiction |].
  now destruct (status =? 404).
Qed.

(** C1, amended. [load_vacancies_by_emp_ids] runs
    [load_vacancy_by_emp_id] on the ids one after the other, in the
    order of the list.  A fetch that returns is followed by the fetches
    of the remaining ids, and a fetch whose list request fails inside
    the loop does return.  An exception that leaves a fetch ends the
    batch with that exception, in the state the fetch had reached, so
    that nothing is requested for the remaining ids; InvalidInput,
    NotFound and LookupFailed are such exceptions. *)
Theorem batch_stops_at_first_exception
    (fuel : nat) (id : value) (ids : list value) (c : client) :
  (forall c1,
      load_vacancy_by_emp_id http fuel id c = Some (Ok tt, c1) ->
      load_vacancies_by_emp_ids http fuel (id :: ids) c
      = load_vacancies_by_emp_ids http fuel ids c1) /\
  (forall items n body,
      valid_id id = Ok id ->
      http (sent c) (EmployerLookup id) = Http 200 body ->
      pages_continue http c id items n ->
      request_fails (http (history c id n) (list_request c id n)) ->
      (n < fuel)%nat ->
      load_vacancies_by_emp_ids http fuel (id :: ids) c
      = load_vacancies_by_emp_ids http fuel ids
          (stopped_at c id (List.concat (map items (seq 0 n))) n)) /\
  (forall e c1,
      load_vacancy_by_emp_id http fuel id c = Some (Raise e, c1) ->
      load_vacancies_by_emp_ids http fuel (id :: ids) c
      = Some (Raise e, c1)) /\
  (valid_id id <> Ok id ->
   load_vacancies_by_emp_ids http fuel (id :: ids) c
   = Some (Raise InvalidInput, c)) /\
  (forall status body,
      valid_id id = Ok id ->
      http (sent c) (EmployerLookup id) = Http status body ->
      status <> 200 ->
      load_vacancies_by_emp_ids http fuel (id :: ids) c
      = Some (Raise (if status =? 404 then NotFound else LookupFailed),
              record_request (EmployerLookup id) c)).
Proof.
  split; [intros c1 H; now rewrite batch_cons, H |].
  split.
  { intros items n body Hvalid Hlookup Hpages Hfail Hfuel.
    now rewrite batch_cons,
      (load_until_failure c id items n fuel body Hvalid Hlookup Hpages Hfail Hfuel). }
  split; [intros e c1 H; now rewrite batch_cons, H |].
  split; [intros H; now rewrite batch_cons, (load_invalid fuel id c H) |].
  intros status body Hvalid Hlookup Hstatus.
  now rewrite batch_cons,
    (load_lookup_rejected fuel id c status body Hvalid Hlookup Hstatus).
Qed.

End Properties.

(** ** The properties on the sample data *)

Lemma valid_id_positive_integer_witness :
  (0 < 3 /\ valid_id (VInt 3) = Ok (VInt 3)) /\
  (0 <= 0 /\ valid_id (VInt 0) = Raise InvalidInput) /\
  (-4 <= 0 /\ valid_id (VInt (-4)) = Raise InvalidInput) /\
  valid_id VNone = Raise InvalidInput /\
  valid_id (VStr "7") = Raise InvalidInput /\
  valid_id (VList [VInt 7]) = Raise InvalidInput /\
  valid_id (VDict [("id", VInt 7)]) = Raise InvalidInput /\
  valid_id (VBool false) = Raise InvalidInput /\
  (valid_id (VInt 3) = Ok (VInt 3) -> VInt 3 = VInt 3).
Proof.
  pose proof valid_id_positive_integer as (Hpositive & _ & Hother & Hsame).
  split; [split; [lia | apply (Hpositive 3); lia] |].
  split; [split; [lia | apply Hother; [intros n [= <-]; lia | discriminate]] |].
  split; [split; [lia | apply Hother; [intros n [= <-]; lia | discriminate]] |].
  do 5 (split; [apply Hother; [intros n; discriminate | discriminate] |]).
  exact (Hsame (VInt 3) (VInt 3)).
Defined.

(** C5 as first stated fails on a boolean: [True] is not an integer of
    the specification, and [valid_id] accepts it. *)
Lemma valid_id_accepts_True : ~ rejects_all_but_positive_integers.
Proof.
  intros H.
  assert (Hfails : valid_id (VBool true) = Raise InvalidInput)
    by (apply H; intros n; discriminate).
  discriminate Hfails.
Qed.

Lemma check_existence_by_status_witness :
  always (Http 404 None) (sent init) (EmployerLookup (VInt 7)) = Http 404 None /\
  exists r,
    check_existence (always (Http 404 None)) (VInt 7) init
    = Some (r, record_request (EmployerLookup (VInt 7)) init) /\
    (r = Ok true <-> 404 = 200) /\
    (r = Raise NotFound <-> 404 = 404) /\
    (404 <> 200 -> 404 <> 404 -> r = Raise LookupFailed) /\
    NotFound <> LookupFailed.
Proof.
  split; [reflexivity |].
  apply (check_existence_by_status (always (Http 404 None)) (VInt 7) init 404 None).
  reflexivity.
Defined.

Lemma missing_nested_object_raises_witness :
  (In (VDict no_employer) (self_data (holding [vacancy_a; VDict no_employer])) /\
   Py.lookup no_employer "employer" = None /\
   (exists e, get_employers (holding [vacancy_a; VDict no_employer])
              = Some (Raise e, holding [vacancy_a; VDict no_employer])) /\
   vacancy_row read_decimal (VDict no_employer) = Raise AttributeError) /\
  (In (VDict no_area) (self_data (holding [vacancy_a; VDict no_area])) /\
   Py.lookup no_area "area" = None /\
   (exists e, get_areas (holding [vacancy_a; VDict no_area])
              = Some (Raise e, holding [vacancy_a; VDict no_area]))).
Proof.
  assert (Hemp : In (VDict no_employer)
                   (self_data (holding [vacancy_a; VDict no_employer])))
    by (simpl; auto).
  assert (Harea : In (VDict no_area) (self_data (holding [vacancy_a; VDict no_area])))
    by (simpl; auto).
  split.
  - split; [exact Hemp |]. split; [reflexivity |].
    destruct (proj2 (missing_nested_object_raises read_decimal _ _ Hemp) eq_refl)
      as (_ & Hemployers & Hrow & _).
    split; [exact Hemployers | exact Hrow].
  - split; [exact Harea |]. split; [reflexivity |].
    exact (proj2 (proj1 (missing_nested_object_raises read_decimal _ _ Harea)
                    eq_refl)).
Defined.

Lemma get_vacancies_missing_area_raises_witness :
  In (VDict no_area) (self_data (holding [vacancy_a; VDict no_area])) /\
  Py.lookup no_area "area" = None /\
  reaches_area read_decimal (VDict no_area) = true /\
  (exists e, get_vacancies read_decimal (holding [vacancy_a; VDict no_area])
             = Some (Raise e, holding [vacancy_a; VDict no_area])) /\
  vacancy_row read_decimal (VDict no_area) = Raise TypeError.
Proof.
  assert (Hin : In (VDict no_area) (self_data (holding [vacancy_a; VDict no_area])))
    by (simpl; auto).
  split; [exact Hin |]. split; [reflexivity |]. split; [reflexivity |].
  destruct (get_vacancies_missing_area_raises read_decimal _ _ Hin eq_refl)
    as (Hall & _ & _ & _ & Hrow).
  split; [exact Hall | exact (Hrow eq_refl)].
Defined.

Lemma get_vacancies_keeps_order_and_length_witness :
  Forall (fun vacancy => well_formed read_decimal vacancy = true)
    (self_data (holding [vacancy_a; vacancy_b])) /\
  exists out,
    get_vacancies read_decimal (holding [vacancy_a; vacancy_b])
    = Some (Ok out, holding [vacancy_a; vacancy_b]) /\
    out = map (flattened read_decimal) (self_data (holding [vacancy_a; vacancy_b])) /\
    List.length out = List.length (self_data (holding [vacancy_a; vacancy_b])) /\
    (forall i vacancy,
        nth_error (self_data (holding [vacancy_a; vacancy_b])) i = Some vacancy ->
        nth_error out i = Some (flattened read_decimal vacancy)).
Proof.
  assert (W : Forall (fun vacancy => well_formed read_decimal vacancy = true)
                (self_data (holding [vacancy_a; vacancy_b])))
    by (repeat constructor).
  split; [exact W |].
  exact (get_vacancies_keeps_order_and_length read_decimal _ W).
Defined.

Lemma derived_maps_keep_first_seen_witness :
  (get_areas (holding [in_moscow; in_moskva])
   = Some (Ok [(VInt 42, VDict [("name", VStr "Moscow"); ("url", VNone)])],
           holding [in_moscow; in_moskva]) /\
   Py.dict_get [(VInt 42, VDict [("name", VStr "Moscow"); ("url", VNone)])] (VInt 42)
   = option_map area_entry
       (first_with "area" (VInt 42) (self_data (holding [in_moscow; in_moskva]))) /\
   option_map area_entry
     (first_with "area" (VInt 42) (self_data (holding [in_moscow; in_moskva])))
   = Some (VDict [("name", VStr "Moscow"); ("url", VNone)])) /\
  (get_employers (holding [in_moscow; in_moskva])
   = Some (Ok [(VInt 10, VDict [("name", VStr "Acme"); ("url", VNone);
                                ("open_vacancies", VInt 0)])],
           holding [in_moscow; in_moskva]) /\
   Py.dict_get [(VInt 10, VDict [("name", VStr "Acme"); ("url", VNone);
                                 ("open_vacancies", VInt 0)])] (VInt 10)
   = option_map employer_entry
       (first_with "employer" (VInt 10)
          (self_data (holding [in_moscow; in_moskva])))).
Proof.
  split.
  - split; [reflexivity |]. split; [| reflexivity].
    apply (proj1 (derived_maps_keep_first_seen (holding [in_moscow; in_moskva]))
             [(VInt 42, VDict [("name", VStr "Moscow"); ("url", VNone)])] eq_refl).
  - split; [reflexivity |].
    apply (proj2 (derived_maps_keep_first_seen (holding [in_moscow; in_moskva]))
             [(VInt 10, VDict [("name", VStr "Acme"); ("url", VNone);
                               ("open_vacancies", VInt 0)])] eq_refl).
Defined.

Lemma paged_pages_ok (pages : Z) (c : client) (id : value) (n : nat) :
  pages_ok (paged pages) c id sample_items pages n.
Proof.
  intros i _. exists 200, [("items", VList (sample_items i)); ("pages", VInt pages)].
  repeat split; lia || reflexivity.
Qed.

Lemma breaks_on_page_1_continues :
  pages_continue breaks_on_page_1 init (VInt 5) sample_items 1.
Proof.
  intros i Hi. exists 3. destruct i as [| i]; [| lia].
  split; [| lia]. apply (paged_pages_ok 3 init (VInt 5) 1 0%nat). lia.
Qed.

Lemma failure_in_loop_keeps_loaded_pages_witness :
  valid_id (VInt 5) = Ok (VInt 5) /\
  breaks_on_page_1 (sent init) (EmployerLookup (VInt 5)) = Http 200 None /\
  pages_continue breaks_on_page_1 init (VInt 5) sample_items 1 /\
  request_fails
    (breaks_on_page_1 (history init (VInt 5) 1) (list_request init (VInt 5) 1)) /\
  (1 < 2)%nat /\
  exists c',
    load_vacancy_by_emp_id breaks_on_page_1 2 (VInt 5) init = Some (Ok tt, c') /\
    self_data c' = self_data init ++ List.concat (map sample_items (seq 0 1)) /\
    (self_data init = [] ->
     self_data c' = List.concat (map sample_items (seq 0 1))) /\
    sent c' = history init (VInt 5) (S 1).
Proof.
  split; [reflexivity |]. split; [reflexivity |].
  split; [exact breaks_on_page_1_continues |].
  split; [exact I |]. split; [lia |].
  apply (failure_in_loop_keeps_loaded_pages breaks_on_page_1 init (VInt 5)
           sample_items 1 2 None eq_refl eq_refl breaks_on_page_1_continues I).
  lia.
Defined.

Lemma pagination_requests_each_page_witness :
  valid_id (VInt 5) = Ok (VInt 5) /\
  paged 3 (sent init) (EmployerLookup (VInt 5)) = Http 200 None /\
  pages_ok (paged 3) init (VInt 5) sample_items 3 (Z.to_nat (Z.max 3 1)) /\
  (Z.to_nat (Z.max 3 1) <= 3)%nat /\
  exists c',
    load_vacancy_by_emp_id (paged 3) 3 (VInt 5) init = Some (Ok tt, c') /\
    sent c'
    = sent init ++ EmployerLookup (VInt 5)
        :: map (list_request init (VInt 5)) (seq 0 (Z.to_nat (Z.max 3 1))) /\
    self_data c'
    = self_data init
        ++ List.concat (map sample_items (seq 0 (Z.to_nat (Z.max 3 1)))) /\
    page (self_params c') = Z.max 3 1 - 1 /\
    page (self_params c') >= 3 - 1 /\
    (1 <= 3 -> Z.to_nat (Z.max 3 1) = Z.to_nat 3).
Proof.
  split; [reflexivity |]. split; [reflexivity |].
  split; [apply paged_pages_ok |]. split; [vm_compute; lia |].
  apply (pagination_requests_each_page (paged 3) init (VInt 5) sample_items 3 3
           None eq_refl eq_refl (paged_pages_ok 3 init (VInt 5) _)).
  vm_compute; lia.
Defined.

(** C3 as stated fails for a page count of 0: the loop asks for page 0
    before it knows the count, so one request is sent, not none. *)
Lemma issues_p_requests_fails_at_0 : ~ issues_p_requests.
Proof.
  intros H.
  destruct (H (paged 0) init (VInt 5) sample_items 0 None eq_refl eq_refl
              (paged_pages_ok 0 init (VInt 5)))
    as (fuel & c' & Hrun & Hsent & _).
  destruct fuel as [| fuel]; [discriminate Hrun |].
  rewrite (load_all_pages (paged 0) init (VInt 5) sample_items 0 (S fuel) None
             eq_refl eq_refl) in Hrun.
  - injection Hrun as <-. discriminate Hsent.
  - apply paged_pages_ok.
  - simpl. lia.
Qed.

Lemma accumulated_list_only_grows_witness :
  (valid_id (VInt 5) = Ok (VInt 5) /\
   (1 <= 1)%nat /\
   exists c',
     load_vacancies_by_emp_ids
       (always (Http 200 (Some (page_body [vacancy_a] 1)))) 1 [VInt 5; VInt 5] init
     = Some (Ok tt, c') /\
     self_data c' = self_data init ++ [vacancy_a] ++ [vacancy_a]) /\
  (load_vacancy_by_emp_id (always (Http 404 None)) 1 (VInt 5) (holding [vacancy_a])
   = Some (Raise NotFound,
           record_request (EmployerLookup (VInt 5)) (holding [vacancy_a])) /\
   exists l,
     self_data (record_request (EmployerLookup (VInt 5)) (holding [vacancy_a]))
     = self_data (holding [vacancy_a]) ++ l).
Proof.
  split.
  - split; [reflexivity |]. split; [lia |].
    apply (proj2 (proj2 (proj2 (proj2 (proj2 (proj2
             (accumulated_list_only_grows
                (always (Http 200 (Some (page_body [vacancy_a] 1))))
                read_decimal))))))
             1%nat (VInt 5) init [vacancy_a] (Some (page_body [vacancy_a] 1))).
    + reflexivity.
    + reflexivity.
    + intros h q. exists 200, [("items", VList [vacancy_a]); ("pages", VInt 1)].
      repeat split; lia || reflexivity.
    + lia.
  - split; [reflexivity |].
    apply (proj1 (accumulated_list_only_grows (always (Http 404 None)) read_decimal)
             1%nat (VInt 5) (holding [vacancy_a]) (Raise NotFound)).
    reflexivity.
Defined.

Lemma batch_stops_at_first_exception_witness :
  (valid_id (VInt 1) = Ok (VInt 1) /\
   always (Http 404 None) (sent init) (EmployerLookup (VInt 1)) = Http 404 None /\
   404 <> 200 /\
   load_vacancies_by_emp_ids (always (Http 404 None)) 1 [VInt 1; VInt 2] init
   = Some (Raise NotFound, record_request (EmployerLookup (VInt 1)) init)) /\
  (valid_id (VInt 0) <> Ok (VInt 0) /\
   load_vacancies_by_emp_ids (paged 1) 1 [VInt 0; VInt 2] init
   = Some (Raise InvalidInput, init)) /\
  (valid_id (VInt 5) = Ok (VInt 5) /\
   breaks_on_page_1 (sent init) (EmployerLookup (VInt 5)) = Http 200 None /\
   pages_continue breaks_on_page_1 init (VInt 5) sample_items 1 /\
   request_fails
     (breaks_on_page_1 (history init (VInt 5) 1) (list_request init (VInt 5) 1)) /\
   (1 < 2)%nat /\
   load_vacancies_by_emp_ids breaks_on_page_1 2 [VInt 5; VInt 6] init
   = load_vacancies_by_emp_ids breaks_on_page_1 2 [VInt 6]
       (stopped_at init (VInt 5) (List.concat (map sample_items (seq 0 1))) 1)).
Proof.
  split; [| split].
  - split; [reflexivity |]. split; [reflexivity |]. split; [lia |].
    apply (proj2 (proj2 (proj2 (proj2
             (batch_stops_at_first_exception (always (Http 404 None)) 1
                (VInt 1) [VInt 2] init)))) 404 None eq_refl eq_refl).
    lia.
  - assert (Hinvalid : valid_id (VInt 0) <> Ok (VInt 0)) by discriminate.
    split; [exact Hinvalid |].
    apply (proj1 (proj2 (proj2 (proj2
             (batch_stops_at_first_exception (paged 1) 1
                (VInt 0) [VInt 2] init)))) Hinvalid).
  - split; [reflexivity |]. split; [reflexivity |].
    split; [exact breaks_on_page_1_continues |]. split; [exact I |].
    split; [lia |].
    apply (proj1 (proj2
             (batch_stops_at_first_exception breaks_on_page_1 2
                (VInt 5) [VInt 6] init))
             sample_items 1%nat None eq_refl eq_refl
             breaks_on_page_1_continues I).
    lia.
Defined.

(** C1 as stated fails: after a lookup answered 404 for the first id,
    nothing is requested for the second. *)
Lemma failures_are_not_isolated : ~ failures_are_isolated.
Proof.
  intros H.
  pose proof (H (always (Http 404 None)) 1%nat [VInt 1; VInt 2] init
                (Raise NotFound) (record_request (EmployerLookup (VInt 1)) init)
                eq_refl (VInt 2) (or_intror (or_introl eq_refl)) eq_refl) as Hin.
  simpl in Hin. destruct Hin as [Hfirst | []]. discriminate Hfirst.
Qed.

(** ** The end-to-end scenario *)

Example scenario_areas :
  get_areas (holding [vacancy_a; vacancy_b])
  = Some (Ok [(VStr "1", VDict [("name", VStr "Moscow"); ("url", VNone)])],
          holding [vacancy_a; vacancy_b]).
Proof. reflexivity. Qed.

Example scenario_employers :
  get_employers (holding [vacancy_a; vacancy_b])
  = Some (Ok [(VStr "10", VDict [("name", VStr "Acme"); ("url", VNone);
                                 ("open_vacancies", VInt 0)]);
              (VStr "11", VDict [("name", VStr "Beta"); ("url", VNone);
                                 ("open_vacancies", VInt 0)])],
          holding [vacancy_a; vacancy_b]).
Proof. reflexivity. Qed.

Example scenario_vacancies :
  get_vacancies read_decimal (holding [vacancy_a; vacancy_b])
  = Some (Ok [VDict [("id", VInt 1); ("name", VStr "A"); ("area_id", VInt 1);
                     ("salary", VInt 1000); ("employer_id", VInt 10);
                     ("url", VStr "u1")];
              VDict [("id", VInt 2); ("name", VStr "B"); ("area_id", VInt 1);
                     ("salary", VInt 2000); ("employer_id", VInt 11);
                     ("url", VStr "u2")]],
          holding [vacancy_a; vacancy_b]).
Proof. reflexivity. Qed.

(** Three pages announced: three list requests, pages 0, 1 and 2. *)
Example three_pages_run :
  let sent_params i :=
    {| per_page := 100; page := i; only_with_salary := true;
       employer_id := Some (VInt 5) |} in
  load_vacancy_by_emp_id (paged 3) 3 (VInt 5) init
  = Some (Ok tt,
          {| self_params := sent_params 2;
             self_data := [VDict [("id", VInt 0)]; VDict [("id", VInt 1)];
                           VDict [("id", VInt 2)]];
             sent := [EmployerLookup (VInt 5); VacancyList (sent_params 0);
                      VacancyList (sent_params 1); VacancyList (sent_params 2)] |}).
Proof. reflexivity. Qed.

(** No page announced: page 0 is requested all the same. *)
Example zero_pages_run :
  let sent_params i :=
    {| per_page := 100; page := i; only_with_salary := true;
       employer_id := Some (VInt 5) |} in
  load_vacancy_by_emp_id (paged 0) 1 (VInt 5) init
  = Some (Ok tt,
          {| self_params := sent_params 0;
             self_data := [VDict [("id", VInt 0)]];
             sent := [EmployerLookup (VInt 5); VacancyList (sent_params 0)] |}).
Proof. reflexivity. Qed.

(** Page 0 loaded, page 1 raises: the fetch returns with page 0's item. *)
Example broken_page_run :
  exists c',
    load_vacancy_by_emp_id breaks_on_page_1 2 (VInt 5) init = Some (Ok tt, c') /\
    self_data c' = [VDict [("id", VInt 0)]].
Proof. eexists. split; reflexivity. Qed.

(** Three turns of the loop are not enough for ten pages. *)
Example out_of_fuel_run :
  load_vacancy_by_emp_id (paged 10) 3 (VInt 5) init = None.
Proof. reflexivity. Qed.

(** ** Further properties: the requests of a fetch *)

Section Requests.

Variable http : list request -> request -> response.

Lemma valid_id_cases (v : value) :
  valid_id v = Ok v \/ valid_id v = Raise InvalidInput.
Proof. unfold valid_id. destruct (_ && _); auto. Qed.

(** What one turn of the loop does to the log and to the parameters. *)
Lemma fetch_page_effect (x : client) (r : result control) (x' : client) :
  fetch_page http x = Some (r, x') ->
  sent x' = sent x ++ [VacancyList (self_params x)] /\
  ((r = Ok Continue /\
    self_params x' = set_page (page (self_params x) + 1) (self_params x)) \/
   (r <> Ok Continue /\ self_params x' = self_params x)).
Proof.
  rewrite fetch_page_cases. cbn zeta. unfold leaves_try.
  repeat match goal with
         | |- context [match ?t with _ => _ end] => destruct t
         end;
    intros [= <- <-]; (split; [reflexivity |]);
    try (right; split; [discriminate | reflexivity]).
  left. split; reflexivity.
Qed.

Lemma loop_requests (c : client) (id : value) (fuel : nat) :
  forall (k : nat) (x : client) (r : result unit) (c' : client),
    self_params x = set_page (Z.of_nat k) (set_employer_id id (self_params c)) ->
    sent x = history c id k ->
    while_true fuel (fetch_page http) x = Some (r, c') ->
    exists k',
      sent c' = history c id k' /\
      exists j, 0 <= j /\
                self_params c' = set_page j (set_employer_id id (self_params c)).
Proof.
  induction fuel as [| fuel IH]; intros k x r c' Hparams Hsent; [discriminate |].
  rewrite while_true_S.
  destruct (fetch_page http x) as [[[ctl | e] x'] |] eqn:Hturn; [| | discriminate].
  - destruct (fetch_page_effect _ _ _ Hturn) as [Hlog Hpar].
    assert (Hlog' : sent x' = history c id (S k)).
    { rewrite Hlog, Hsent, Hparams, history_S. reflexivity. }
    destruct Hpar as [[Hctl Hpar] | [Hctl Hpar]].
    + injection Hctl as ->. apply (IH (S k)); [| exact Hlog'].
      rewrite Hpar, Hparams. unfold set_page. cbn. f_equal. lia.
    + destruct ctl; [| congruence]. intros [= <- <-].
      exists (S k). split; [exact Hlog' |].
      exists (Z.of_nat k). split; [lia | congruence].
  - destruct (fetch_page_effect _ _ _ Hturn) as [Hlog [[Hctl _] | [_ Hpar]]];
      [discriminate |].
    intros [= <- <-]. exists (S k). split.
    + rewrite Hlog, Hsent, Hparams, history_S. reflexivity.
    + exists (Z.of_nat k). split; [lia | congruence].
Qed.

(** The three ways a fetch can go, by what it has sent. *)
Lemma load_shape (fuel : nat) (id : value) (c : client)
    (r : result unit) (c' : client) :
  load_vacancy_by_emp_id http fuel id c = Some (r, c') ->
  (c' = c /\ r = Raise InvalidInput) \/
  (sent c' = history c id 0 /\ self_params c' = self_params c /\
   exists e, r = Raise e) \/
  (exists k j,
      sent c' = history c id k /\ 0 <= j /\
      self_params c' = set_page j (set_employer_id id (self_params c))).
Proof.
  destruct (valid_id_cases id) as [Hvalid | Hinvalid].
  - destruct (http (sent c) (EmployerLookup id)) as [| status body] eqn:Hlookup.
    + unfold load_vacancy_by_emp_id, check_existence, requests_get, bind, lift.
      rewrite Hvalid, Hlookup. intros [= <- <-].
      right. left. repeat split. eauto.
    + destruct (Z.eq_dec status 200) as [-> | Hstatus].
      * rewrite (load_enters_loop http fuel id c (fun _ => []) body Hvalid Hlookup).
        intros Hloop. right. right.
        destruct (loop_requests c id fuel 0 (after_pages c id (fun _ => []) 0)
                    r c' eq_refl eq_refl Hloop)
          as (k & Hk & j & Hj & Hp).
        now exists k, j.
      * rewrite (load_lookup_rejected http fuel id c status body
                   Hvalid Hlookup Hstatus).
        intros [= <- <-]. right. left. repeat split. eauto.
  - rewrite load_invalid; [| congruence].
    intros [= <- <-]. left. split; reflexivity.
Qed.

(** X1. Whatever the transport answers and however the fetch ends, the
    requests of [load_vacancy_by_emp_id] are none at all (the id is
    invalid), or the lookup of the employer followed by list requests
    for the pages 0, 1, 2, ... without a gap or a repeat, all for that
    employer and with the page size and salary filter of the client. *)
Theorem fetch_sends_lookup_then_consecutive_pages
    (fuel : nat) (id : value) (c : client) (r : result unit) (c' : client) :
  load_vacancy_by_emp_id http fuel id c = Some (r, c') ->
  (sent c' = sent c /\ r = Raise InvalidInput) \/
  (exists k,
      sent c' = sent c ++ EmployerLookup id
                  :: map (fun i =>
                            VacancyList
                              {| per_page := per_page (self_params c);
                                 page := Z.of_nat i;
                                 only_with_salary := only_with_salary (self_params c);
                                 employer_id := Some id |})
                       (seq 0 k)).
Proof.
  intros Hrun.
  destruct (load_shape _ _ _ _ _ Hrun)
    as [[-> ->] | [(Hsent & _) | (k & j & Hsent & _)]].
  - left. split; reflexivity.
  - right. exists 0%nat. exact Hsent.
  - right. exists k. exact Hsent.
Qed.

Lemma sent_for_incl (per : Z) (salary : bool) (ids ids' : list value)
    (q : request) :
  (forall id, In id ids -> In id ids') ->
  sent_for per salary ids q -> sent_for per salary ids' q.
Proof.
  intros Hincl. destruct q as [id | p]; simpl; [apply Hincl |].
  intros (Hper & Hsal & Hpage & id & Hin & Hid). eauto 8.
Qed.

Lemma history_sent_for (c : client) (id : value) (k : nat) :
  exists new,
    history c id k = sent c ++ new /\
    Forall (sent_for (per_page (self_params c))
              (only_with_salary (self_params c)) [id]) new.
Proof.
  eexists. split; [reflexivity |].
  constructor; [simpl; auto |].
  apply Forall_forall. intros q Hq. apply in_map_iff in Hq as (i & <- & _).
  simpl. repeat split; [lia |]. exists id. simpl. auto.
Qed.

Lemma load_sent_for (fuel : nat) (id : value) (c : client)
    (r : result unit) (c' : client) :
  load_vacancy_by_emp_id http fuel id c = Some (r, c') ->
  per_page (self_params c') = per_page (self_params c) /\
  only_with_salary (self_params c') = only_with_salary (self_params c) /\
  exists new,
    sent c' = sent c ++ new /\
    Forall (sent_for (per_page (self_params c))
              (only_with_salary (self_params c)) [id]) new.
Proof.
  intros Hrun.
  destruct (load_shape _ _ _ _ _ Hrun)
    as [[-> ->] | [(Hsent & Hpar & _) | (k & j & Hsent & _ & Hpar)]].
  - repeat split. exists []. split; [now rewrite app_nil_r | constructor].
  - rewrite Hpar, Hsent. repeat split. apply history_sent_for.
  - rewrite Hpar, Hsent. repeat split. apply history_sent_for.
Qed.

(** X2. A batch never changes the page size or the salary filter of the
    client, and whatever happens it only adds requests to the log: lookups
    of employers of the batch, and list requests for employers of the
    batch with that page size, that filter and a page index that is not
    negative. *)
Theorem batch_requests_keep_configuration
    (fuel : nat) (ids : list value) (c : client) (r : result unit) (c' : client) :
  load_vacancies_by_emp_ids http fuel ids c = Some (r, c') ->
  per_page (self_params c') = per_page (self_params c) /\
  only_with_salary (self_params c') = only_with_salary (self_params c) /\
  exists new,
    sent c' = sent c ++ new /\
    Forall (sent_for (per_page (self_params c))
              (only_with_salary (self_params c)) ids) new.
Proof.
  revert c. induction ids as [| id ids IH]; intros c.
  - intros [= <- <-]. repeat split. exists [].
    split; [now rewrite app_nil_r | constructor].
  - rewrite batch_cons.
    destruct (load_vacancy_by_emp_id http fuel id c) as [[[[] | e] c1] |] eqn:Hload;
      [| | discriminate].
    + intros Hrest.
      destruct (load_sent_for _ _ _ _ _ Hload) as (Hper & Hsal & new1 & Hs1 & Hf1).
      destruct (IH _ Hrest) as (Hper' & Hsal' & new2 & Hs2 & Hf2).
      rewrite Hper', Hsal'. split; [exact Hper |]. split; [exact Hsal |].
      exists (new1 ++ new2). split; [now rewrite Hs2, Hs1, app_assoc |].
      apply Forall_app. split.
      * eapply Forall_impl; [| exact Hf1].
        intros q. apply sent_for_incl. intros x [-> | []]. now left.
      * rewrite Hper, Hsal in Hf2.
        eapply Forall_impl; [| exact Hf2].
        intros q. apply sent_for_incl. intros x Hx. now right.
    + intros [= <- <-].
      destruct (load_sent_for _ _ _ _ _ Hload) as (Hper & Hsal & new1 & Hs1 & Hf1).
      split; [exact Hper |]. split; [exact Hsal |].
      exists new1. split; [exact Hs1 |].
      eapply Forall_impl; [| exact Hf1].
      intros q. apply sent_for_incl. intros x [-> | []]. now left.
Qed.

(** X3. A transport error on the lookup request is not caught: the
    [RequestException] leaves [load_vacancy_by_emp_id], and with it the
    batch, after that one request; only list requests are inside the
    [try]. *)
Theorem lookup_transport_error_is_not_caught
    (fuel : nat) (id : value) (ids : list value) (c : client) :
  valid_id id = Ok id ->
  http (sent c) (EmployerLookup id) = TransportError ->
  load_vacancy_by_emp_id http fuel id c
  = Some (Raise RequestException, record_request (EmployerLookup id) c) /\
  load_vacancies_by_emp_ids http fuel (id :: ids) c
  = Some (Raise RequestException, record_request (EmployerLookup id) c).
Proof.
  intros Hvalid Hlookup.
  assert (Hload : load_vacancy_by_emp_id http fuel id c
                  = Some (Raise RequestException,
                          record_request (EmployerLookup id) c)).
  { unfold load_vacancy_by_emp_id, check_existence, requests_get, bind, lift.
    now rewrite Hvalid, Hlookup. }
  split; [exact Hload | now rewrite batch_cons, Hload].
Qed.

Lemma at_page_request (c : client) (id : value) (items : nat -> list value)
    (n : nat) (loaded : list value) :
  extend loaded (record_request (list_request c id n) (after_pages c id items n))
  = stopped_at c id (List.concat (map items (seq 0 n)) ++ loaded) n.
Proof.
  unfold stopped_at, after_pages, extend, record_request.
  cbn [self_params self_data sent].
  now rewrite history_S, app_assoc.
Qed.

Lemma load_reaches_page (c : client) (id : value) (items : nat -> list value)
    (n fuel : nat) (body : option value) :
  valid_id id = Ok id ->
  http (sent c) (EmployerLookup id) = Http 200 body ->
  pages_continue http c id items n ->
  (n < fuel)%nat ->
  load_vacancy_by_emp_id http fuel id c
  = match fetch_page http (after_pages c id items n) with
    | Some (Ok Break, c') => Some (Ok tt, c')
    | Some (Ok Continue, c') =>
        while_true (fuel - S n) (fetch_page http) c'
    | Some (Raise e, c') => Some (Raise e, c')
    | None => None
    end.
Proof.
  intros Hvalid Hlookup Hpages Hfuel.
  rewrite (load_enters_loop _ _ _ _ items _ Hvalid Hlookup).
  replace fuel with (n + S (fuel - S n))%nat at 1 by lia.
  now rewrite (while_true_pages _ _ _ _ _ Hpages), while_true_S.
Qed.

(** X4. A list response without the [pages] key is noticed only after its
    items are appended: the [KeyError] leaves the fetch, it is not
    caught, and the accumulated list keeps the items of that page with
    those of the pages before. *)
Theorem missing_pages_key_raises_after_append
    (c : client) (id : value) (items : nat -> list value) (n fuel : nat)
    (body : option value) (status : Z) (d : list (string * value))
    (last_items : list value) :
  valid_id id = Ok id ->
  http (sent c) (EmployerLookup id) = Http 200 body ->
  pages_continue http c id items n ->
  http (history c id n) (list_request c id n) = Http status (Some (VDict d)) ->
  status < 400 \/ 600 <= status ->
  Py.lookup d "items" = Some (VList last_items) ->
  Py.lookup d "pages" = None ->
  (n < fuel)%nat ->
  load_vacancy_by_emp_id http fuel id c
  = Some (Raise (KeyError "pages"),
          stopped_at c id (List.concat (map items (seq 0 n)) ++ last_items) n).
Proof.
  intros Hvalid Hlookup Hpages Hresp Hstatus Hitems Hnone Hfuel.
  rewrite (load_reaches_page c id items n fuel body Hvalid Hlookup Hpages Hfuel).
  rewrite fetch_page_cases. cbn zeta.
  change (sent (after_pages c id items n)) with (history c id n).
  change (VacancyList (self_params (after_pages c id items n)))
    with (list_request c id n).
  rewrite Hresp.
  replace ((400 <=? status) && (status <? 600)) with false
    by (symmetry; apply andb_false_iff; rewrite Z.leb_gt, Z.ltb_ge; lia).
  cbn [Py.getitem]. rewrite Hitems. cbn [Py.iter]. rewrite Hnone.
  cbn [leaves_try]. now rewrite at_page_request.
Qed.

Lemma unreadable_items_error (data : value) (e : exn) :
  (v <- Py.getitem data "items" ;; Py.iter v)%result = Raise e ->
  e = TypeError \/ e = KeyError "items".
Proof.
  destruct data as [| | | | | d]; simpl; try (intros [= <-]; now left).
  destruct (Py.lookup d "items") as [[] |]; simpl; intros [= <-]; auto.
Qed.

(** X5. A list response from which no items can be read (the body is
    not an object, has no [items] key, or its [items] cannot be iterated)
    makes the fetch raise a [KeyError] or a [TypeError], which is not
    caught; nothing of that page is appended, the pages before it stay. *)
Theorem unreadable_items_raise
    (c : client) (id : value) (items : nat -> list value) (n fuel : nat)
    (body : option value) (status : Z) (data : value) (e : exn) :
  valid_id id = Ok id ->
  http (sent c) (EmployerLookup id) = Http 200 body ->
  pages_continue http c id items n ->
  http (history c id n) (list_request c id n) = Http status (Some data) ->
  status < 400 \/ 600 <= status ->
  (v <- Py.getitem data "items" ;; Py.iter v)%result = Raise e ->
  (n < fuel)%nat ->
  (e = TypeError \/ e = KeyError "items") /\
  load_vacancy_by_emp_id http fuel id c
  = Some (Raise e, stopped_at c id (List.concat (map items (seq 0 n))) n).
Proof.
  intros Hvalid Hlookup Hpages Hresp Hstatus Hitems Hfuel.
  pose proof (unreadable_items_error _ _ Hitems) as He.
  split; [exact He |].
  rewrite (load_reaches_page c id items n fuel body Hvalid Hlookup Hpages Hfuel).
  rewrite fetch_page_cases. cbn zeta.
  change (sent (after_pages c id items n)) with (history c id n).
  change (VacancyList (self_params (after_pages c id items n)))
    with (list_request c id n).
  rewrite Hresp.
  replace ((400 <=? status) && (status <? 600)) with false
    by (symmetry; apply andb_false_iff; rewrite Z.leb_gt, Z.ltb_ge; lia).
  assert (Hend : record_request (list_request c id n) (after_pages c id items n)
                 = stopped_at c id (List.concat (map items (seq 0 n))) n).
  { unfold stopped_at, after_pages, record_request. simpl. now rewrite history_S. }
  rewrite Hend.
  destruct (Py.getitem data "items") as [v | e1]; simpl in Hitems.
  - rewrite Hitems. now destruct He as [-> | ->].
  - injection Hitems as ->. now destruct He as [-> | ->].
Qed.

(** X6. The loop has no bound of its own: when every list response
    succeeds and announces a page beyond itself, no number of turns ends
    [load_vacancy_by_emp_id]. *)
Theorem endless_pages_never_return
    (c : client) (id : value) (items : nat -> list value) (body : option value) :
  valid_id id = Ok id ->
  http (sent c) (EmployerLookup id) = Http 200 body ->
  (forall n, pages_continue http c id items n) ->
  forall fuel, load_vacancy_by_emp_id http fuel id c = None.
Proof.
  intros Hvalid Hlookup Hpages fuel.
  rewrite (load_enters_loop _ _ _ _ items _ Hvalid Hlookup).
  replace fuel with (fuel + 0)%nat by lia.
  now rewrite (while_true_pages _ _ _ _ _ (Hpages fuel)).
Qed.

(** X7. The page count is read anew from every response: the loop goes on
    while the latest response announces pages beyond its own, and stops
    at the first page [n] whose own response does not, after [n + 1] list
    requests, whatever the earlier responses announced. *)
Theorem loop_stops_on_latest_count
    (c : client) (id : value) (items : nat -> list value) (n fuel : nat)
    (body : option value) (pages : Z) :
  valid_id id = Ok id ->
  http (sent c) (EmployerLookup id) = Http 200 body ->
  pages_continue http c id items n ->
  page_ok (http (history c id n) (list_request c id n)) (items n) pages ->
  pages - 1 <= Z.of_nat n ->
  (n < fuel)%nat ->
  exists c',
    load_vacancy_by_emp_id http fuel id c = Some (Ok tt, c') /\
    sent c' = history c id (S n) /\
    self_data c' = self_data c ++ List.concat (map items (seq 0 (S n))) /\
    page (self_params c') = Z.of_nat n.
Proof.
  intros Hvalid Hlookup Hpages Hlast Hcount Hfuel.
  exists (stopped_at c id (List.concat (map items (seq 0 (S n)))) n).
  split; [| repeat split].
  rewrite (load_reaches_page c id items n fuel body Hvalid Hlookup Hpages Hfuel).
  now rewrite (fetch_page_last _ _ _ _ _ _ Hlast Hcount).
Qed.

(** X8. A batch over two lists of ids put end to end is the batch over
    the first followed, when it returns, by the batch over the second
    from the state the first has left; an exception of the first is the
    exception of the whole. *)
Theorem batch_of_concatenation
    (fuel : nat) (ids more : list value) (c : client) :
  load_vacancies_by_emp_ids http fuel (ids ++ more) c
  = match load_vacancies_by_emp_ids http fuel ids c with
    | Some (Ok _, c1) => load_vacancies_by_emp_ids http fuel more c1
    | Some (Raise e, c1) => Some (Raise e, c1)
    | None => None
    end.
Proof.
  revert c. induction ids as [| id ids IH]; intros c; [reflexivity |].
  rewrite <- app_comm_cons, !batch_cons.
  destruct (load_vacancy_by_emp_id http fuel id c) as [[[[] | e] c1] |];
    [apply IH | reflexivity | reflexivity].
Qed.

End Requests.

(** ** Further properties: the derived views *)

Lemma key_eqb_refl (v : value) : Py.hashable v = true -> Py.key_eqb v v = true.
Proof.
  destruct v; simpl; try discriminate; intros _;
    [reflexivity | apply Z.eqb_refl | apply Z.eqb_refl | apply String.eqb_refl].
Qed.

Lemma dict_set_length (d : Py.dict) (k v : value) :
  (List.length (Py.dict_set d k v) <= S (List.length d))%nat.
Proof.
  induction d as [| [k' v'] d IH]; simpl; [lia |].
  destruct (Py.key_eqb k' k); simpl; lia.
Qed.

Section DerivedMap.

Variable k : string.
Variable entry : value -> value.
Variable body : value -> Py.dict -> result Py.dict.
Hypothesis body_files : files_or_raises k entry body.

Lemma files_or_raises_first_seen : files_first_seen k entry body.
Proof.
  intros vacancy acc out. rewrite body_files.
  destruct (nested_ok k vacancy); [now intros [= <-] | discriminate].
Qed.

Lemma for_in_returns_iff (data : list value) (acc : Py.dict) :
  (exists out, for_in data body acc = Ok out)
  <-> Forall (fun vacancy => nested_ok k vacancy = true) data.
Proof.
  revert acc. induction data as [| vacancy data IH]; intros acc; simpl.
  - split; [constructor | eauto].
  - rewrite body_files.
    destruct (nested_ok k vacancy) eqn:Hok; simpl.
    + rewrite IH. split; [now constructor | now inversion 1].
    + split; [intros [out [=]] | inversion 1; congruence].
Qed.

Lemma for_in_size (data : list value) (acc out : Py.dict) :
  for_in data body acc = Ok out ->
  (List.length out <= List.length acc + List.length data)%nat.
Proof.
  revert acc. induction data as [| vacancy data IH]; intros acc; simpl.
  - intros [= <-]. lia.
  - rewrite body_files. destruct (nested_ok k vacancy); simpl; [| discriminate].
    intros Hrest. apply IH in Hrest.
    destruct (Py.dict_get acc (nested_id k vacancy)); [lia |].
    pose proof (dict_set_length acc (nested_id k vacancy) (entry vacancy)). lia.
Qed.

Lemma for_in_files_all (data : list value) (acc out : Py.dict) :
  for_in data body acc = Ok out ->
  forall vacancy,
    In vacancy data ->
    nested_ok k vacancy = true /\ Py.dict_get out (nested_id k vacancy) <> None.
Proof.
  intros Hrun vacancy Hin. split.
  - assert (Hall : Forall (fun v => nested_ok k v = true) data)
      by (apply (for_in_returns_iff data acc); eauto).
    now apply (proj1 (Forall_forall _ _) Hall).
  - destruct (for_in_first_seen k entry body files_or_raises_first_seen
                _ _ _ Hrun) as [_ Hget].
    rewrite Hget. destruct (Py.dict_get acc (nested_id k vacancy)); [discriminate |].
    unfold first_with.
    destruct (find _ data) eqn:Hfind; [discriminate |].
    pose proof (find_none _ _ Hfind _ Hin) as Hneq. cbv beta in Hneq.
    assert (Hok : nested_ok k vacancy = true).
    { assert (Hall : Forall (fun v => nested_ok k v = true) data)
        by (apply (for_in_returns_iff data acc); eauto).
      now apply (proj1 (Forall_forall _ _) Hall). }
    unfold nested_ok in Hok. apply andb_true_iff in Hok as [_ Hhash].
    now rewrite (key_eqb_refl _ Hhash) in Hneq.
Qed.

Lemma for_in_filed_again (extra : list value) (m : Py.dict) :
  (forall vacancy,
      In vacancy extra ->
      nested_ok k vacancy = true /\ Py.dict_get m (nested_id k vacancy) <> None) ->
  for_in extra body m = Ok m.
Proof.
  induction extra as [| vacancy extra IH]; intros Hall; simpl; [reflexivity |].
  rewrite body_files.
  destruct (Hall vacancy (or_introl eq_refl)) as [-> Hkey].
  destruct (Py.dict_get m (nested_id k vacancy)) as [seen |]; [| contradiction].
  simpl. apply IH. intros other Hother. apply Hall. now right.
Qed.

End DerivedMap.

Lemma get_areas_body_spelled : files_or_raises "area" area_entry get_areas_body.
Proof.
  intros vacancy acc. unfold get_areas_body, nested_ok, area_entry, nested_id, field.
  destruct vacancy as [| | | | | d]; try reflexivity. simpl.
  destruct (Py.lookup d "area") as [[| | | | | a] |]; try reflexivity. simpl.
  unfold Py.contains, Py.setitem.
  destruct (Py.hashable _); simpl; [| reflexivity].
  now destruct (Py.dict_get acc _).
Qed.

Lemma get_employers_body_spelled :
  files_or_raises "employer" employer_entry get_employers_body.
Proof.
  intros vacancy acc.
  unfold get_employers_body, nested_ok, employer_entry, nested_id, field.
  destruct vacancy as [| | | | | d]; try reflexivity. simpl.
  destruct (Py.lookup d "employer") as [[| | | | | a] |]; try reflexivity. simpl.
  unfold Py.contains, Py.setitem.
  destruct (Py.hashable _); simpl; [| reflexivity].
  now destruct (Py.dict_get acc _).
Qed.

(** X9. [get_areas] returns a map exactly when every accumulated record
    is an object whose [area] is an object with a hashable id, and
    [get_employers] exactly when every record is an object whose
    [employer] is one; one record that is not makes the call raise. *)
Theorem derived_maps_return_iff (c : client) :
  ((exists areas, get_areas c = Some (Ok areas, c))
   <-> Forall (fun vacancy => nested_ok "area" vacancy = true) (self_data c)) /\
  ((exists employers, get_employers c = Some (Ok employers, c))
   <-> Forall (fun vacancy => nested_ok "employer" vacancy = true) (self_data c)).
Proof.
  unfold get_areas, get_employers. rewrite !run_projection. split.
  - rewrite <- (for_in_returns_iff _ _ _ get_areas_body_spelled (self_data c) []).
    split; intros [m Hm]; exists m; congruence.
  - rewrite <- (for_in_returns_iff _ _ _ get_employers_body_spelled (self_data c) []).
    split; intros [m Hm]; exists m; congruence.
Qed.

(** X10. Every entry of the map of [get_employers] has its
    [open_vacancies] at 0, however many records the employer has in the
    accumulated list: the counter is set when the entry is made and never
    touched again. *)
Theorem open_vacancies_is_always_zero
    (c : client) (employers : Py.dict) (id entry : value) :
  get_employers c = Some (Ok employers, c) ->
  Py.dict_get employers id = Some entry ->
  field entry "open_vacancies" = VInt 0.
Proof.
  unfold get_employers. rewrite run_projection. intros [= Hrun].
  destruct (for_in_first_seen _ _ _
              (files_or_raises_first_seen _ _ _ get_employers_body_spelled)
              _ _ _ Hrun) as [_ Hget].
  rewrite Hget. simpl.
  destruct (first_with "employer" id (self_data c)); simpl; [| discriminate].
  now intros [= <-].
Qed.

(** X11. The derived maps have at most as many entries as the
    accumulated list has records. *)
Theorem derived_maps_are_no_larger_than_the_list (c : client) :
  (forall areas,
      get_areas c = Some (Ok areas, c) ->
      (List.length areas <= List.length (self_data c))%nat) /\
  (forall employers,
      get_employers c = Some (Ok employers, c) ->
      (List.length employers <= List.length (self_data c))%nat).
Proof.
  unfold get_areas, get_employers. rewrite !run_projection.
  split; intros m [= Hrun].
  - apply (for_in_size _ _ _ get_areas_body_spelled) in Hrun. simpl in Hrun. lia.
  - apply (for_in_size _ _ _ get_employers_body_spelled) in Hrun. simpl in Hrun. lia.
Qed.

(** X12. Records that are already in the accumulated list change neither
    derived map when they are accumulated once more: after an employer is
    fetched a second time, [get_areas] and [get_employers] return what
    they returned before. *)
Theorem repeated_records_leave_derived_maps
    (c c2 : client) (extra : list value) :
  self_data c2 = self_data c ++ extra ->
  (forall vacancy, In vacancy extra -> In vacancy (self_data c)) ->
  (forall areas,
      get_areas c = Some (Ok areas, c) -> get_areas c2 = Some (Ok areas, c2)) /\
  (forall employers,
      get_employers c = Some (Ok employers, c) ->
      get_employers c2 = Some (Ok employers, c2)).
Proof.
  intros Hdata Hextra. unfold get_areas, get_employers.
  rewrite !run_projection, Hdata, !for_in_app.
  split; intros m [= Hrun]; rewrite Hrun; simpl; do 2 f_equal.
  - apply (for_in_filed_again _ _ _ get_areas_body_spelled).
    intros vacancy Hin.
    apply (for_in_files_all _ _ _ get_areas_body_spelled _ _ _ Hrun), Hextra, Hin.
  - apply (for_in_filed_again _ _ _ get_employers_body_spelled).
    intros vacancy Hin.
    apply (for_in_files_all _ _ _ get_employers_body_spelled _ _ _ Hrun),
      Hextra, Hin.
Qed.

Section Vacancies.

Variable int_of_str : string -> option Z.

Lemma vacancy_row_ill_formed (vacancy : value) :
  well_formed int_of_str vacancy = false ->
  exists e, vacancy_row int_of_str vacancy = Raise e.
Proof.
  unfold well_formed, reaches_area, nested_id, int_like.
  intros W. destruct vacancy as [| | | | | d]; try (eexists; reflexivity).
  unfold vacancy_row, has_field, field in *. simpl in *.
  destruct (Py.lookup d "salary") as [[| | | | | sal] |]; simpl in *;
    try (eexists; reflexivity);
    (destruct (Py.lookup d "employer") as [[| | | | | emp] |]; simpl in *;
     try (eexists; reflexivity));
    (destruct (Py.int int_of_str
                 match Py.lookup d "id" with Some x => x | None => VNone end);
     simpl in *; try (eexists; reflexivity));
    (destruct (Py.lookup d "area") as [[| | | | | ar] |]; simpl in *;
     try (eexists; reflexivity));
    repeat match goal with
           | |- context [Py.int int_of_str ?v] =>
               destruct (Py.int int_of_str v); simpl in *;
               try (eexists; reflexivity)
           end;
    discriminate W.
Qed.

Lemma vacancy_row_returns (vacancy row : value) :
  vacancy_row int_of_str vacancy = Ok row ->
  well_formed int_of_str vacancy = true /\ row = flattened int_of_str vacancy.
Proof.
  intros Hrow. destruct (well_formed int_of_str vacancy) eqn:W.
  - rewrite (vacancy_row_well_formed int_of_str _ W) in Hrow.
    now injection Hrow as <-.
  - destruct (vacancy_row_ill_formed _ W) as [e He]. congruence.
Qed.

Lemma get_vacancies_loop_returns (data acc out : list value) :
  for_in data (get_vacancies_body int_of_str) acc = Ok out ->
  Forall (fun vacancy => well_formed int_of_str vacancy = true) data /\
  out = acc ++ map (flattened int_of_str) data.
Proof.
  revert acc. induction data as [| vacancy data IH]; intros acc; simpl.
  - intros [= <-]. split; [constructor | now rewrite app_nil_r].
  - unfold get_vacancies_body at 1.
    destruct (vacancy_row int_of_str vacancy) as [row | e] eqn:Hrow; simpl;
      [| discriminate].
    destruct (vacancy_row_returns _ _ Hrow) as [W ->].
    intros Hrest. destruct (IH _ Hrest) as [Hall ->].
    split; [now constructor | now rewrite <- app_assoc].
Qed.

(** X13. [get_vacancies] returns only when every accumulated record is
    well formed, and what it returns is the list of their flattened
    tuples: a single record that is not well formed makes the whole call
    raise, whatever the other records are. *)
Theorem get_vacancies_returns_only_well_formed (c : client) (out : list value) :
  get_vacancies int_of_str c = Some (Ok out, c) ->
  Forall (fun vacancy => well_formed int_of_str vacancy = true) (self_data c) /\
  out = map (flattened int_of_str) (self_data c).
Proof.
  unfold get_vacancies. rewrite run_projection. intros [= Hrun].
  now apply get_vacancies_loop_returns in Hrun.
Qed.

(** X14. The exception of [get_vacancies] is the one of the first record
    that cannot be flattened: the records after it are not looked at,
    and the client is left as it was. *)
Theorem get_vacancies_raises_first_error
    (c : client) (before after : list value) (vacancy : value) (e : exn) :
  self_data c = before ++ vacancy :: after ->
  Forall (fun v => well_formed int_of_str v = true) before ->
  vacancy_row int_of_str vacancy = Raise e ->
  get_vacancies int_of_str c = Some (Raise e, c).
Proof.
  intros Hdata Hbefore Hrow.
  unfold get_vacancies. rewrite run_projection, Hdata, for_in_app.
  rewrite (get_vacancies_loop_well_formed int_of_str _ [] Hbefore). simpl.
  unfold get_vacancies_body at 1. now rewrite Hrow.
Qed.

(** X15. The default of the salary covers a missing key only.  A record
    without [salary] is flattened with a salary of [None]; a record whose
    [salary] is there but is not an object, [null] for one, raises an
    AttributeError. *)
Theorem salary_default_covers_absence_only (d : list (string * value)) :
  (Py.lookup d "salary" = None ->
   forall row,
     vacancy_row int_of_str (VDict d) = Ok row -> field row "salary" = VNone) /\
  (forall salary,
      Py.lookup d "salary" = Some salary ->
      is_dict salary = false ->
      vacancy_row int_of_str (VDict d) = Raise AttributeError).
Proof.
  split.
  - intros Hnone row Hrow.
    destruct (vacancy_row_returns _ _ Hrow) as [_ ->].
    unfold flattened, field. simpl. now rewrite Hnone.
  - intros salary Hsome Hnot. unfold vacancy_row. simpl. rewrite Hsome.
    now destruct salary.
Qed.

(** X16. [get_areas] keeps the area ids as the records have them while
    [get_vacancies] converts them with [int].  When the ids of the
    records are strings, as the API sends them, no [area_id] of a
    flattened tuple is a key of the area map; when they are integers,
    every one is. *)
Theorem area_keys_are_not_converted
    (c : client) (areas : Py.dict) (out : list value) :
  get_areas c = Some (Ok areas, c) ->
  get_vacancies int_of_str c = Some (Ok out, c) ->
  ((forall vacancy, In vacancy (self_data c) ->
                    exists s, nested_id "area" vacancy = VStr s) ->
   forall row, In row out -> Py.dict_get areas (field row "area_id") = None) /\
  ((forall vacancy, In vacancy (self_data c) ->
                    exists n, nested_id "area" vacancy = VInt n) ->
   forall row, In row out -> Py.dict_get areas (field row "area_id") <> None).
Proof.
  unfold get_areas, get_vacancies. rewrite !run_projection.
  intros [= Hareas] [= Hout].
  apply get_vacancies_loop_returns in Hout as [_ ->]. simpl.
  destruct (for_in_first_seen _ _ _
              (files_or_raises_first_seen _ _ _ get_areas_body_spelled)
              _ _ _ Hareas) as [_ Hget].
  split; intros Hids row Hrow; apply in_map_iff in Hrow as (vacancy & <- & Hin).
  - change (field (flattened int_of_str vacancy) "area_id")
      with (VInt (to_int int_of_str (nested_id "area" vacancy))).
    rewrite Hget. simpl. unfold first_with.
    destruct (find _ (self_data c)) as [found |] eqn:Hfind; [| reflexivity].
    apply find_some in Hfind as [Hfound Heq].
    destruct (Hids _ Hfound) as [s Hs]. rewrite Hs in Heq. discriminate Heq.
  - change (field (flattened int_of_str vacancy) "area_id")
      with (VInt (to_int int_of_str (nested_id "area" vacancy))).
    destruct (Hids _ Hin) as [n Hn].
    destruct (for_in_files_all _ _ _ get_areas_body_spelled _ _ _ Hareas _ Hin)
      as [_ Hkey].
    rewrite Hn in *. exact Hkey.
Qed.

End Vacancies.

(** ** The further properties on the sample data *)

Lemma fetch_sends_lookup_then_consecutive_pages_witness :
  exists r c',
    load_vacancy_by_emp_id breaks_on_page_1 2 (VInt 5) init = Some (r, c') /\
    ((sent c' = sent init /\ r = Raise InvalidInput) \/
     (exists k,
         sent c' = sent init ++ EmployerLookup (VInt 5)
                     :: map (fun i =>
                               VacancyList
                                 {| per_page := per_page (self_params init);
                                    page := Z.of_nat i;
                                    only_with_salary :=
                                      only_with_salary (self_params init);
                                    employer_id := Some (VInt 5) |})
                          (seq 0 k))).
Proof.
  eexists. eexists. split; [reflexivity |].
  eapply (fetch_sends_lookup_then_consecutive_pages breaks_on_page_1 2 (VInt 5) init).
  reflexivity.
Defined.

Lemma batch_requests_keep_configuration_witness :
  exists r c',
    load_vacancies_by_emp_ids (paged 2) 2 [VInt 5; VInt 0; VInt 6] init
    = Some (r, c') /\
    per_page (self_params c') = per_page (self_params init) /\
    only_with_salary (self_params c') = only_with_salary (self_params init) /\
    exists new,
      sent c' = sent init ++ new /\
      Forall (sent_for (per_page (self_params init))
                (only_with_salary (self_params init)) [VInt 5; VInt 0; VInt 6])
        new.
Proof.
  eexists. eexists. split; [reflexivity |].
  eapply (batch_requests_keep_configuration (paged 2) 2
            [VInt 5; VInt 0; VInt 6] init).
  reflexivity.
Defined.

Lemma lookup_transport_error_is_not_caught_witness :
  valid_id (VInt 5) = Ok (VInt 5) /\
  always TransportError (sent init) (EmployerLookup (VInt 5)) = TransportError /\
  load_vacancy_by_emp_id (always TransportError) 1 (VInt 5) init
  = Some (Raise RequestException, record_request (EmployerLookup (VInt 5)) init) /\
  load_vacancies_by_emp_ids (always TransportError) 1 [VInt 5; VInt 6] init
  = Some (Raise RequestException, record_request (EmployerLookup (VInt 5)) init).
Proof.
  split; [reflexivity |]. split; [reflexivity |].
  apply (lookup_transport_error_is_not_caught (always TransportError) 1
           (VInt 5) [VInt 6] init); reflexivity.
Defined.

Lemma no_pages_before_page_0 (http : list request -> request -> response)
    (c : client) (id : value) (items : nat -> list value) :
  pages_continue http c id items 0.
Proof. intros i Hi. lia. Qed.

Lemma missing_pages_key_raises_after_append_witness :
  valid_id (VInt 5) = Ok (VInt 5) /\
  (200 < 400 \/ 600 <= 200) /\
  Py.lookup [("items", VList [vacancy_a])] "items" = Some (VList [vacancy_a]) /\
  Py.lookup [("items", VList [vacancy_a])] "pages" = None /\
  (0 < 1)%nat /\
  load_vacancy_by_emp_id
    (always (Http 200 (Some (VDict [("items", VList [vacancy_a])]))))
    1 (VInt 5) init
  = Some (Raise (KeyError "pages"),
          stopped_at init (VInt 5)
            (List.concat (map sample_items (seq 0 0)) ++ [vacancy_a]) 0).
Proof.
  split; [reflexivity |]. split; [lia |]. split; [reflexivity |].
  split; [reflexivity |]. split; [lia |].
  apply (missing_pages_key_raises_after_append
           (always (Http 200 (Some (VDict [("items", VList [vacancy_a])]))))
           init (VInt 5) sample_items 0 1
           (Some (VDict [("items", VList [vacancy_a])])) 200
           [("items", VList [vacancy_a])] [vacancy_a]);
    try reflexivity; try lia.
  apply no_pages_before_page_0.
Defined.

Lemma unreadable_items_raise_witness :
  valid_id (VInt 5) = Ok (VInt 5) /\
  (200 < 400 \/ 600 <= 200) /\
  (v <- Py.getitem (VDict [("pages", VInt 1)]) "items" ;; Py.iter v)%result
  = Raise (KeyError "items") /\
  (0 < 1)%nat /\
  (KeyError "items" = TypeError \/ KeyError "items" = KeyError "items") /\
  load_vacancy_by_emp_id
    (always (Http 200 (Some (VDict [("pages", VInt 1)])))) 1 (VInt 5) init
  = Some (Raise (KeyError "items"),
          stopped_at init (VInt 5) (List.concat (map sample_items (seq 0 0))) 0).
Proof.
  split; [reflexivity |]. split; [lia |]. split; [reflexivity |]. split; [lia |].
  apply (unreadable_items_raise
           (always (Http 200 (Some (VDict [("pages", VInt 1)]))))
           init (VInt 5) sample_items 0 1
           (Some (VDict [("pages", VInt 1)])) 200 (VDict [("pages", VInt 1)])
           (KeyError "items"));
    try reflexivity; try lia.
  apply no_pages_before_page_0.
Defined.

Lemma endless_continues (n : nat) :
  pages_continue endless init (VInt 5) sample_items n.
Proof.
  intros i _. exists (Z.of_nat i + 2). split; [| lia].
  exists 200, [("items", VList (sample_items i)); ("pages", VInt (Z.of_nat i + 2))].
  repeat split; lia || reflexivity.
Qed.

Lemma endless_pages_never_return_witness :
  valid_id (VInt 5) = Ok (VInt 5) /\
  endless (sent init) (EmployerLookup (VInt 5)) = Http 200 None /\
  (forall n, pages_continue endless init (VInt 5) sample_items n) /\
  forall fuel, load_vacancy_by_emp_id endless fuel (VInt 5) init = None.
Proof.
  split; [reflexivity |]. split; [reflexivity |]. split; [exact endless_continues |].
  exact (endless_pages_never_return endless init (VInt 5) sample_items None
           eq_refl eq_refl endless_continues).
Defined.

Lemma shrinking_continues :
  pages_continue shrinking init (VInt 5) sample_items 1.
Proof.
  intros i Hi. exists 5. destruct i as [| i]; [| lia]. split; [| lia].
  exists 200, [("items", VList (sample_items 0)); ("pages", VInt 5)].
  repeat split; lia || reflexivity.
Qed.

Lemma shrinking_last :
  page_ok (shrinking (history init (VInt 5) 1) (list_request init (VInt 5) 1))
    (sample_items 1) 2.
Proof.
  exists 200, [("items", VList (sample_items 1)); ("pages", VInt 2)].
  repeat split; lia || reflexivity.
Qed.

Lemma loop_stops_on_latest_count_witness :
  valid_id (VInt 5) = Ok (VInt 5) /\
  shrinking (sent init) (EmployerLookup (VInt 5)) = Http 200 None /\
  pages_continue shrinking init (VInt 5) sample_items 1 /\
  page_ok (shrinking (history init (VInt 5) 1) (list_request init (VInt 5) 1))
    (sample_items 1) 2 /\
  2 - 1 <= Z.of_nat 1 /\
  (1 < 2)%nat /\
  exists c',
    load_vacancy_by_emp_id shrinking 2 (VInt 5) init = Some (Ok tt, c') /\
    sent c' = history init (VInt 5) 2 /\
    self_data c' = self_data init ++ List.concat (map sample_items (seq 0 2)) /\
    page (self_params c') = Z.of_nat 1.
Proof.
  split; [reflexivity |]. split; [reflexivity |].
  split; [exact shrinking_continues |]. split; [exact shrinking_last |].
  split; [simpl; lia |]. split; [lia |].
  apply (loop_stops_on_latest_count shrinking init (VInt 5) sample_items 1 2 None 2
           eq_refl eq_refl shrinking_continues shrinking_last).
  - simpl. lia.
  - lia.
Defined.

Lemma derived_maps_return_iff_witness :
  Forall (fun vacancy => nested_ok "employer" vacancy = true)
    (self_data (holding [vacancy_a; VDict no_area])) /\
  (exists employers,
      get_employers (holding [vacancy_a; VDict no_area])
      = Some (Ok employers, holding [vacancy_a; VDict no_area])) /\
  ~ Forall (fun vacancy => nested_ok "area" vacancy = true)
      (self_data (holding [vacancy_a; VDict no_area])) /\
  ~ (exists areas,
        get_areas (holding [vacancy_a; VDict no_area])
        = Some (Ok areas, holding [vacancy_a; VDict no_area])).
Proof.
  assert (Hemp : Forall (fun vacancy => nested_ok "employer" vacancy = true)
                   (self_data (holding [vacancy_a; VDict no_area])))
    by (repeat constructor).
  assert (Harea : ~ Forall (fun vacancy => nested_ok "area" vacancy = true)
                      (self_data (holding [vacancy_a; VDict no_area]))).
  { intros H. inversion H as [| ? ? _ H']. inversion H' as [| ? ? Hno _].
    discriminate Hno. }
  split; [exact Hemp |].
  split; [exact (proj2 (proj2 (derived_maps_return_iff _)) Hemp) |].
  split; [exact Harea |].
  intros Hareas. exact (Harea (proj1 (proj1 (derived_maps_return_iff _)) Hareas)).
Defined.

Lemma open_vacancies_is_always_zero_witness :
  get_employers (holding [in_moscow; in_moskva])
  = Some (Ok [(VInt 10, VDict [("name", VStr "Acme"); ("url", VNone);
                               ("open_vacancies", VInt 0)])],
          holding [in_moscow; in_moskva]) /\
  Py.dict_get [(VInt 10, VDict [("name", VStr "Acme"); ("url", VNone);
                                ("open_vacancies", VInt 0)])] (VInt 10)
  = Some (VDict [("name", VStr "Acme"); ("url", VNone);
                 ("open_vacancies", VInt 0)]) /\
  field (VDict [("name", VStr "Acme"); ("url", VNone); ("open_vacancies", VInt 0)])
    "open_vacancies" = VInt 0.
Proof.
  split; [reflexivity |]. split; [reflexivity |].
  exact (open_vacancies_is_always_zero (holding [in_moscow; in_moskva])
           _ (VInt 10) _ eq_refl eq_refl).
Defined.

Lemma derived_maps_are_no_larger_than_the_list_witness :
  get_areas (holding [in_moscow; in_moskva])
  = Some (Ok [(VInt 42, VDict [("name", VStr "Moscow"); ("url", VNone)])],
          holding [in_moscow; in_moskva]) /\
  (List.length [(VInt 42, VDict [("name", VStr "Moscow"); ("url", VNone)])]
   <= List.length (self_data (holding [in_moscow; in_moskva])))%nat.
Proof.
  split; [reflexivity |].
  exact (proj1 (derived_maps_are_no_larger_than_the_list
                  (holding [in_moscow; in_moskva])) _ eq_refl).
Defined.

Lemma repeated_records_leave_derived_maps_witness :
  self_data (holding ([vacancy_a; vacancy_b] ++ [vacancy_b; vacancy_a]))
  = self_data (holding [vacancy_a; vacancy_b]) ++ [vacancy_b; vacancy_a] /\
  (forall vacancy,
      In vacancy [vacancy_b; vacancy_a] ->
      In vacancy (self_data (holding [vacancy_a; vacancy_b]))) /\
  get_areas (holding [vacancy_a; vacancy_b])
  = Some (Ok [(VStr "1", VDict [("name", VStr "Moscow"); ("url", VNone)])],
          holding [vacancy_a; vacancy_b]) /\
  get_areas (holding ([vacancy_a; vacancy_b] ++ [vacancy_b; vacancy_a]))
  = Some (Ok [(VStr "1", VDict [("name", VStr "Moscow"); ("url", VNone)])],
          holding ([vacancy_a; vacancy_b] ++ [vacancy_b; vacancy_a])).
Proof.
  assert (Hin : forall vacancy,
             In vacancy [vacancy_b; vacancy_a] ->
             In vacancy (self_data (holding [vacancy_a; vacancy_b])))
    by (simpl; intuition).
  split; [reflexivity |]. split; [exact Hin |]. split; [reflexivity |].
  exact (proj1 (repeated_records_leave_derived_maps
                  (holding [vacancy_a; vacancy_b])
                  (holding ([vacancy_a; vacancy_b] ++ [vacancy_b; vacancy_a]))
                  [vacancy_b; vacancy_a] eq_refl Hin) _ eq_refl).
Defined.

Lemma get_vacancies_returns_only_well_formed_witness :
  exists out,
    get_vacancies read_decimal (holding [vacancy_a; vacancy_b])
    = Some (Ok out, holding [vacancy_a; vacancy_b]) /\
    Forall (fun vacancy => well_formed read_decimal vacancy = true)
      (self_data (holding [vacancy_a; vacancy_b])) /\
    out = map (flattened read_decimal) (self_data (holding [vacancy_a; vacancy_b])).
Proof.
  eexists. split; [reflexivity |].
  eapply (get_vacancies_returns_only_well_formed read_decimal
            (holding [vacancy_a; vacancy_b])).
  reflexivity.
Defined.

Lemma get_vacancies_raises_first_error_witness :
  self_data (holding [vacancy_a; VDict no_area; VDict no_employer])
  = [vacancy_a] ++ VDict no_area :: [VDict no_employer] /\
  Forall (fun v => well_formed read_decimal v = true) [vacancy_a] /\
  vacancy_row read_decimal (VDict no_area) = Raise TypeError /\
  get_vacancies read_decimal (holding [vacancy_a; VDict no_area; VDict no_employer])
  = Some (Raise TypeError, holding [vacancy_a; VDict no_area; VDict no_employer]).
Proof.
  assert (W : Forall (fun v => well_formed read_decimal v = true) [vacancy_a])
    by (repeat constructor).
  split; [reflexivity |]. split; [exact W |]. split; [reflexivity |].
  exact (get_vacancies_raises_first_error read_decimal
           (holding [vacancy_a; VDict no_area; VDict no_employer])
           [vacancy_a] [VDict no_employer] (VDict no_area) TypeError
           eq_refl W eq_refl).
Defined.

Lemma salary_default_covers_absence_only_witness :
  (Py.lookup no_salary "salary" = None /\
   vacancy_row read_decimal (VDict no_salary)
   = Ok (flattened read_decimal (VDict no_salary)) /\
   field (flattened read_decimal (VDict no_salary)) "salary" = VNone) /\
  (Py.lookup null_salary "salary" = Some VNone /\
   is_dict VNone = false /\
   vacancy_row read_decimal (VDict null_salary) = Raise AttributeError).
Proof.
  split.
  - split; [reflexivity |]. split; [reflexivity |].
    exact (proj1 (salary_default_covers_absence_only read_decimal no_salary)
             eq_refl _ eq_refl).
  - split; [reflexivity |]. split; [reflexivity |].
    exact (proj2 (salary_default_covers_absence_only read_decimal null_salary)
             VNone eq_refl eq_refl).
Defined.

Lemma string_area_ids :
  forall vacancy,
    In vacancy (self_data (holding [vacancy_a; vacancy_b])) ->
    exists s, nested_id "area" vacancy = VStr s.
Proof. intros vacancy [<- | [<- | []]]; now exists "1". Qed.

Lemma area_keys_are_not_converted_witness :
  exists areas out,
    get_areas (holding [vacancy_a; vacancy_b])
    = Some (Ok areas, holding [vacancy_a; vacancy_b]) /\
    get_vacancies read_decimal (holding [vacancy_a; vacancy_b])
    = Some (Ok out, holding [vacancy_a; vacancy_b]) /\
    (forall vacancy,
        In vacancy (self_data (holding [vacancy_a; vacancy_b])) ->
        exists s, nested_id "area" vacancy = VStr s) /\
    forall row, In row out -> Py.dict_get areas (field row "area_id") = None.
Proof.
  eexists. eexists. split; [reflexivity |]. split; [reflexivity |].
  split; [exact string_area_ids |].
  exact (proj1 (area_keys_are_not_converted read_decimal
                  (holding [vacancy_a; vacancy_b]) _ _ eq_refl eq_refl)
           string_area_ids).
Defined.
